(** * Quotes API: validation, error mapping and get-or-create resolution

    A shallow embedding of [main.py]: a Flask application with two
    resources (authors and quotes), marshmallow schemas for input
    validation and output rendering, webargs for request parsing and a
    SQLAlchemy session over SQLite.

    The program is mostly glue, so three small layers model what the glue
    is attached to:
    - [Python values]: JSON values as Python sees them (truthiness,
      [str.split], tuple unpacking, [datetime.isoformat]);
    - [marshmallow / webargs]: schema declaration, [load] with the
      [unknown] policy, [dump] with [only], and the 422 abort of
      [use_args];
    - [Flask]: error-handler dispatch at the request boundary.
    The program itself (exceptions, models, schemas, CRUD helpers,
    decorators and views) follows, with the names of the source. *)

From stdpp Require Import gmap strings list fin_maps.
From Stdlib Require Import ZArith Ascii String DecimalString.

#[local] Set Warnings "-register-all,-clear-no-such-hyp".
#[local] Open Scope Z_scope.
#[local] Open Scope string_scope.

(** ** Python values *)

(** A JSON document as [request.get_json()] hands it over. A [dict] is a
    finite map: key order never matters to this program, and Flask sorts
    the keys when it renders a response. Numbers are the integers (a
    float behaves like a non-zero or a zero integer for everything this
    program does with it). *)
Inductive json :=
| JNull
| JBool (b : bool)
| JNum (n : Z)
| JStr (s : string)
| JList (l : list json)
| JObj (d : gmap string json).

Abbreviation dict := (gmap string json).

(** [bool(v)]: what [if v:] and [not v] test. *)
Definition truthy (v : json) : bool :=
  match v with
  | JNull => false
  | JBool b => b
  | JNum n => negb (n =? 0)%Z
  | JStr s => negb (String.eqb s "")
  | JList l => negb (bool_decide (l = []))
  | JObj d => negb (bool_decide (d = ∅))
  end.

(** A Python exception that none of the program's handlers knows about:
    its class name, [str(e)] and the frames of its traceback. Frames of
    the libraries are left out; a raise site records the source line. *)
Record PyError := mkPyError {
  etype : string;
  evalue : string;
  etb : list string
}.

(** [traceback.format_exception(type(e), e, e.__traceback__)], joined. *)
Definition format_exception (e : PyError) : string :=
  (if bool_decide (etb e = []) then ""
   else "Traceback (most recent call last):" +:+ String.concat "" (etb e))
  +:+ etype e +:+ ": " +:+ evalue e.

(** [s.split(sep)] for a one-character separator: one token more than
    there are separators, empty tokens included. A JSON string arrives as
    UTF-8 here and the space is a single byte that no multi-byte sequence
    contains, so splitting bytes is splitting characters. *)
Fixpoint split (sep : ascii) (s : string) : list string :=
  match s with
  | EmptyString => [EmptyString]
  | String c s' =>
      if Ascii.eqb c sep then EmptyString :: split sep s'
      else match split sep s' with
           | [] => [String c EmptyString]
           | tok :: toks => String c tok :: toks
           end
  end.

(** Number of occurrences of a character, [s.count(c)]. *)
Fixpoint count (c : ascii) (s : string) : nat :=
  match s with
  | EmptyString => 0%nat
  | String c' s' => ((if Ascii.eqb c' c then 1 else 0) + count c s')%nat
  end.

(** [datetime.datetime], naive (no tzinfo), as [utcnow()] returns it. *)
Record datetime := mkDatetime {
  year : nat; month : nat; day : nat;
  hour : nat; minute : nat; second : nat; microsecond : nat
}.

Definition digit (n : nat) : ascii := ascii_of_nat (48 + n mod 10).

(** [n] in decimal on [width] digits, zero padded ([%0<width>d]). *)
Fixpoint zpad (width n : nat) : string :=
  match width with
  | O => ""
  | S w => zpad w (n / 10) +:+ String (digit n) ""
  end.

(** [datetime.isoformat()]: the fraction is printed only when it is not
    zero. *)
Definition isoformat (t : datetime) : string :=
  zpad 4 (year t) +:+ "-" +:+ zpad 2 (month t) +:+ "-" +:+ zpad 2 (day t)
  +:+ "T" +:+ zpad 2 (hour t) +:+ ":" +:+ zpad 2 (minute t)
  +:+ ":" +:+ zpad 2 (second t)
  +:+ (if Nat.eqb (microsecond t) 0 then "" else "." +:+ zpad 6 (microsecond t)).

(** ** The program's exceptions ([EXCEPTION HANDLING], first half) *)

(** [APIException]: [message] is whatever the raiser passes (a text at
    every raise site but one: the 422 handler passes the field errors),
    [payload] is [None] or a mapping. *)
Record APIException := mkAPIException {
  message : json;
  status_code : Z;
  payload : option dict
}.

(** [dict(self.payload or ())], then the two assignments, in this order. *)
Definition to_dict (self : APIException) : dict :=
  let rv := default ∅ (payload self) in
  let rv := <["message" := message self]> rv in
  <["status" := JStr "error"]> rv.

(** The four kinds. An omitted keyword argument is [None] here and takes
    the default of the signature. *)
Definition InvalidPayload (message : option json) (payload : option dict) : APIException :=
  mkAPIException (default (JStr "Invalid payload.") message) 400 payload.


Definition NotFoundException (message : option json) (payload : option dict) : APIException :=
  mkAPIException (default (JStr "Not Found.") message) 404 payload.

Definition ServerErrorException (message : option json) (payload : option dict) : APIException :=
  mkAPIException (default (JStr "Something went wrong.") message) 500 payload.




(** ** What a view can raise, and what a request returns *)

(** The HTTP errors the framework raises and the program registers a
    handler for: 404 from the router, and the 422 that webargs aborts with
    on a validation failure, whose [data] holds the messages. *)
Inductive HTTPException :=
| NotFound
| UnprocessableEntity (data : dict).

Inductive Raised :=
| RaiseAPI (e : APIException)
| RaiseHTTP (e : HTTPException)
| RaisePy (e : PyError).

Inductive result (A : Type) :=
| Ok (a : A)
| Raise (r : Raised).
Arguments Ok {A} a.
Arguments Raise {A} r.

Definition bind {A B} (x : result A) (f : A -> result B) : result B :=
  match x with
  | Ok a => f a
  | Raise r => Raise r
  end.

(** A raise of a Python exception at a line of [main.py]. *)
Definition raise_at {A} (where_ cls msg : string) : result A :=
  Raise (RaisePy (mkPyError cls msg [where_])).

Record Response := mkResponse {
  http_status : Z;
  body : json
}.

Inductive LogLevel := DEBUG | ERROR.

(** One call on [app.logger]: level, text and, for Flask's own
    [log_exception], the exception given as [exc_info]. *)
Record LogRecord := mkLogRecord {
  level : LogLevel;
  text : string;
  exc_info : option PyError
}.

(** ** marshmallow 3 and webargs *)

(** [Meta.unknown]; a schema that does not set it has [RAISE]. *)
Inductive Unknown := RAISE | EXCLUDE | INCLUDE.

(** A validator returns [None] or raises [ValidationError(msg)]. *)
Definition validator := json -> option string.

Inductive FieldOutcome :=
| Value (v : json)
| Missing
| Errors (messages : json).

Inductive LoadOutcome :=
| Valid (d : dict)
| Invalid (errors : dict).

(** A declared field over objects of type [A]. A field declared with
    [dump_only=True] takes no part in loading ([load_fields] leaves it
    out), so it only has its serializer. *)
Inductive Field (A : Type) :=
| OutputField (serialize : A -> json)
| InputField (required : bool) (deserialize : json -> json + json)
             (validate : option validator) (serialize : A -> json).
Arguments OutputField {A} serialize.
Arguments InputField {A} required deserialize validate serialize.

Definition Field_serialize {A} (f : Field A) : A -> json :=
  match f with
  | OutputField ser => ser
  | InputField _ _ _ ser => ser
  end.

(** [Field.deserialize]: the required check, the null check (no field
    here allows [None]), the type's [_deserialize], then the validator. *)
Definition Field_deserialize (required : bool) (deserialize : json -> json + json)
    (validate : option validator) (raw : option json) : FieldOutcome :=
  match raw with
  | None =>
      if required then Errors (JList [JStr "Missing data for required field."])
      else Missing
  | Some JNull => Errors (JList [JStr "Field may not be null."])
  | Some v =>
      match deserialize v with
      | inr messages => Errors messages
      | inl output =>
          match validate with
          | None => Value output
          | Some check =>
              match check output with
              | Some msg => Errors (JList [JStr msg])
              | None => Value output
              end
          end
      end
  end.

Record Schema (A : Type) := mkSchema {
  declared_fields : list (string * Field A);
  pre_load : option (dict -> result dict);
  unknown : Unknown;
  only : option (list string)
}.
Arguments mkSchema {A} declared_fields pre_load unknown only.
Arguments declared_fields {A} s.
Arguments pre_load {A} s.
Arguments unknown {A} s.
Arguments only {A} s.

(** The fields a schema instance works with: all declared ones, or those
    named by [only]. *)
Definition fields_of {A} (s : Schema A) : list (string * Field A) :=
  match only s with
  | None => declared_fields s
  | Some names => filter (λ nf, nf.1 ∈ names) (declared_fields s)
  end.

Definition is_input {A} (f : Field A) : bool :=
  match f with
  | OutputField _ => false
  | InputField _ _ _ _ => true
  end.

(** Names of [load_fields]. *)
Definition load_names {A} (s : Schema A) : list string :=
  (fields_of s ≫= λ nf, if is_input nf.2 then [nf.1] else []).

(** [Schema._deserialize] on a mapping: every load field in turn, values
    into the result and failures into the error store; then the keys of
    the input that name no load field, according to [unknown]. *)
Definition deserialize_step {A} (data : dict) (nf : string * Field A)
    (acc : dict * dict) : dict * dict :=
  match nf.2 with
  | OutputField _ => acc
  | InputField required deserialize validate _ =>
      match Field_deserialize required deserialize validate (data !! nf.1) with
      | Value v => (<[nf.1 := v]> acc.1, acc.2)
      | Missing => acc
      | Errors m => (acc.1, <[nf.1 := m]> acc.2)
      end
  end.

Definition unknown_keys {A} (s : Schema A) (data : dict) : dict :=
  filter (λ kv, kv.1 ∉ load_names s) data.

Definition deserialize_fields {A} (s : Schema A) (data : dict) : dict * dict :=
  foldr (deserialize_step data) (∅, ∅) (fields_of s).

Definition load_result {A} (s : Schema A) (data : dict) : dict :=
  match unknown s with
  | INCLUDE => (deserialize_fields s data).1 ∪ unknown_keys s data
  | _ => (deserialize_fields s data).1
  end.

Definition load_errors {A} (s : Schema A) (data : dict) : dict :=
  match unknown s with
  | RAISE =>
      (deserialize_fields s data).2
      ∪ ((λ _, JList [JStr "Unknown field."]) <$> unknown_keys s data)
  | _ => (deserialize_fields s data).2
  end.

Definition Schema_deserialize {A} (s : Schema A) (data : dict) : LoadOutcome :=
  if bool_decide (load_errors s data = ∅) then Valid (load_result s data)
  else Invalid (load_errors s data).

(** [Schema.load]: the [pre_load] hook first, on the raw input; anything
    it raises other than a validation error leaves [load]. *)
Definition Schema_load {A} (s : Schema A) (data : dict) : result LoadOutcome :=
  match pre_load s with
  | None => Ok (Schema_deserialize s data)
  | Some hook => bind (hook data) (λ data', Ok (Schema_deserialize s data'))
  end.

(** [Schema.dump] of one object; with [many=True] the same for each
    element of a list. *)
Definition Schema_dump {A} (s : Schema A) (obj : A) : dict :=
  foldr (λ nf acc, <[nf.1 := Field_serialize nf.2 obj]> acc) ∅ (fields_of s).

Definition Schema_dump_many {A} (s : Schema A) (objs : list A) : list json :=
  (λ obj, JObj (Schema_dump s obj)) <$> objs.

(** The field types this program declares. [Int], [DateTime] and
    [Method] appear only with [dump_only=True]. *)
Definition Int {A} (attr : A -> Z) : Field A :=
  OutputField (λ obj, JNum (attr obj)).

Definition DateTime {A} (attr : A -> datetime) : Field A :=
  OutputField (λ obj, JStr (isoformat (attr obj))).

Definition Method {A} (method : A -> string) : Field A :=
  OutputField (λ obj, JStr (method obj)).

Definition Str_deserialize (v : json) : json + json :=
  match v with
  | JStr s => inl (JStr s)
  | _ => inr (JList [JStr "Not a valid string."])
  end.

Definition Str {A} (attr : A -> string) (required : bool)
    (validate : option validator) : Field A :=
  InputField required Str_deserialize validate (λ obj, JStr (attr obj)).

(** [Nested(schema)]: loading hands the value to the nested schema's
    [load] (a schema without hooks here, so its [_deserialize]) and
    passes its errors on; dumping renders the related object, or [null]
    when there is none. *)
Definition Nested_deserialize {B} (nested : Schema B) (v : json) : json + json :=
  match v with
  | JObj d =>
      match Schema_deserialize nested d with
      | Valid ret => inl (JObj ret)
      | Invalid errors => inr (JObj errors)
      end
  | _ => inr (JObj {["_schema" := JList [JStr "Invalid input type."]]})
  end.

Definition Nested {A B} (attr : A -> option B) (nested : Schema B)
    (validate : option validator) : Field A :=
  InputField false (Nested_deserialize nested) validate
    (λ obj, match attr obj with
            | Some related => JObj (Schema_dump nested related)
            | None => JNull
            end).

(** ** MODELS *)

(** A row of table [author]. *)
Module Author.
Record t := mk { id : Z; first : string; last : string }.
End Author.

(** A row of table [quote]. *)
Module Quote.
Record t := mk { id : Z; content : string; author_id : Z; posted_at : datetime }.
End Quote.

(** [db]: the SQLite database behind the session, each table in row
    order. Every [create] commits at once, so there is no pending state. *)
Record DB := mkDB {
  author_table : list Author.t;
  quote_table : list Quote.t
}.

Definition empty_db : DB := mkDB [] [].

(** What the CRUD helpers need of a mapped class. *)
Class Model (R : Type) := {
  pk : R -> Z;
  rows : DB -> list R;
  with_rows : list R -> DB -> DB
}.

#[export] Instance Author_Model : Model Author.t := {|
  pk := Author.id;
  rows := author_table;
  with_rows := λ l db, mkDB l (quote_table db)
|}.

#[export] Instance Quote_Model : Model Quote.t := {|
  pk := Quote.id;
  rows := quote_table;
  with_rows := λ l db, mkDB (author_table db) l
|}.

(** The key SQLite gives to a new row of an INTEGER PRIMARY KEY table:
    one more than the largest key in use, 1 in an empty table. *)
Definition next_id (ids : list Z) : Z :=
  match ids with
  | [] => 1
  | i :: rest => 1 + foldr Z.max i rest
  end.

(** Code that reads and writes the database and may raise. *)
Definition M (A : Type) : Type := DB -> DB * result A.

Definition ret {A} (a : A) : M A := λ db, (db, Ok a).

Definition raise {A} (r : Raised) : M A := λ db, (db, Raise r).

Definition lift {A} (x : result A) : M A := λ db, (db, x).

Definition mbind_M {A B} (x : M A) (f : A -> M B) : M B :=
  λ db, match x db with
        | (db', Ok a) => f a db'
        | (db', Raise r) => (db', Raise r)
        end.

#[export] Instance M_ret : MRet M := @ret.
#[export] Instance M_bind : MBind M := λ A B f x, mbind_M x f.

(** [Author.__init__(first, last)]; the key is filled in at commit. *)
Definition Author_init (first last : string) (id : Z) : Author.t :=
  Author.mk id first last.

(** [Author] called with the entries of [obj_in] as keywords, which
    must be exactly the parameters.
    Validation lets only strings through; the model stops any other
    value here. *)
Definition Author_kwargs (obj_in : dict) : result (Z -> Author.t) :=
  match obj_in !! "first", obj_in !! "last" with
  | Some (JStr first), Some (JStr last) =>
      if bool_decide (delete "first" (delete "last" obj_in) = ∅)
      then Ok (Author_init first last)
      else raise_at "main.py:180 create" "TypeError"
             "__init__() got an unexpected keyword argument"
  | _, _ =>
      raise_at "main.py:180 create" "TypeError"
        "__init__() missing required positional arguments"
  end.

Section Program.

(** The default of parameter [posted_at] of [Quote.__init__]:
    [datetime.datetime.utcnow()] is evaluated when the [def] statement
    runs, that is once, while the module is loaded. *)
Variable utcnow_at_definition : datetime.

(** [Quote.__init__(content, author_id, posted_at=<default>)]. *)
Definition Quote_init (content : string) (author_id : Z)
    (posted_at : option datetime) (id : Z) : Quote.t :=
  Quote.mk id content author_id (default utcnow_at_definition posted_at).

(** [Quote] called with the entries of [obj_in] as keywords and with
    [author_id=author.id]. After [del args["author"]]
    the validated arguments hold [content] alone; any other keyword is
    not a parameter, repeats [author_id], or is a JSON value for the
    DateTime column, and raises. *)
Definition Quote_kwargs (obj_in : dict) (author_id : Z) : result (Z -> Quote.t) :=
  match obj_in !! "content" with
  | Some (JStr content) =>
      if bool_decide (delete "content" obj_in = ∅)
      then Ok (Quote_init content author_id None)
      else raise_at "main.py:210 create" "TypeError"
             "__init__() got an unexpected keyword argument"
  | _ =>
      raise_at "main.py:210 create" "TypeError"
        "__init__() missing 1 required positional argument: 'content'"
  end.

(** ** CRUD *)

Section CRUDBase.
Context {R : Type} `{Model R}.

(** [query(model).filter(model.id == id).first()] *)
Definition get (db : DB) (id : Z) : option R :=
  List.find (λ r, bool_decide (pk r = id)) (rows db).

(** [query(model).offset(skip).limit(limit).all()] *)
Definition get_multi (db : DB) (skip limit : nat) : list R :=
  take limit (drop skip (rows db)).

(** [add], [commit], [refresh]: the row gets its key and is stored. *)
Definition insert_row (new : Z -> R) : M R :=
  λ db, let row := new (next_id (pk <$> rows db)) in
        (with_rows (rows db ++ [row]) db, Ok row).

(** [CRUDBase.create], for the class given to [CRUDBase(model=...)]. *)
Definition create (model : dict -> result (Z -> R)) (obj_in : dict) : M R :=
  new ← lift (model obj_in); insert_row new.
End CRUDBase.

(** [CRUDAuthor.get_by_name]: SQLite compares text byte by byte. *)
Definition get_by_name (db : DB) (first last : string) : option Author.t :=
  List.find
    (λ a, bool_decide (Author.first a = first) && bool_decide (Author.last a = last))
    (author_table db).

Definition crud_author_create : dict -> M Author.t := create Author_kwargs.

(** [CRUDQuote.get_multi_by_author] *)
Definition get_multi_by_author (db : DB) (author_id : Z) (skip limit : nat)
    : list Quote.t :=
  take limit (drop skip
    (filter (λ q, Quote.author_id q = author_id) (quote_table db))).

(** [CRUDQuote.create] *)
Definition crud_quote_create (obj_in : dict) (author : Author.t) : M Quote.t :=
  new ← lift (Quote_kwargs obj_in (Author.id author)); insert_row new.

(** ** EXCEPTION HANDLING, the handlers *)

(** [handle_exception], registered for [APIException] and its four
    subclasses. *)
Definition handle_exception (error : APIException) : Response :=
  mkResponse (status_code error) (JObj (to_dict error)).

(** [handle_not_found], registered for 404. *)
Definition handle_not_found : Response :=
  handle_exception (NotFoundException None None).

(** The handler registered for 422 (the source names it
    [handle_not_found] a second time). [error.data] is what webargs
    attached to the abort; [.get] on a missing ["messages"] gives
    [None], which has no [.get]. *)
Definition handle_unprocessable (data : dict) : Response + PyError :=
  match data !! "messages" with
  | Some (JObj messages) =>
      let message := default JNull (messages !! "json") in
      inl (handle_exception (InvalidPayload (Some message) None))
  | _ =>
      inr (mkPyError "AttributeError" "object has no attribute 'get'"
             ["main.py:75 handle_not_found"])
  end.

(** [handle_general_exception], registered for 500: two log calls,
    then the generic envelope, built without looking at [error]. *)
Definition handle_general_exception (error : PyError) : list LogRecord * Response :=
  ([mkLogRecord ERROR ("Unknown Exception: " +:+ evalue error) None;
    mkLogRecord DEBUG (format_exception error) None],
   handle_exception (ServerErrorException None None)).

(** ** SCHEMAS *)

Definition format_name (author : Author.t) : string :=
  Author.last author +:+ ", " +:+ Author.first author.

Definition AuthorSchema : Schema Author.t :=
  mkSchema
    [("id", Int Author.id);
     ("first", Str Author.first false None);
     ("last", Str Author.last false None);
     ("formatted_name", Method format_name)]
    None RAISE None.

(** The custom validator. *)
Definition must_not_be_blank : validator :=
  λ data, if truthy data then None else Some "Data not provided.".

(** [first, last = tokens] *)
Definition unpack2 (tokens : list string) : result (string * string) :=
  match tokens with
  | [first; last] => Ok (first, last)
  | [] =>
      raise_at "main.py:152 process_author" "ValueError"
        "not enough values to unpack (expected 2, got 0)"
  | [_] =>
      raise_at "main.py:152 process_author" "ValueError"
        "not enough values to unpack (expected 2, got 1)"
  | _ =>
      raise_at "main.py:152 process_author" "ValueError"
        "too many values to unpack (expected 2)"
  end.

(** [QuoteSchema.process_author], the [pre_load] hook. [data.get]
    gives [None] for an absent key; a truthy value that is not a string
    has no [split]. *)
Definition process_author (data : dict) : result dict :=
  let author_name := default JNull (data !! "author") in
  bind
    (if truthy author_name then
       match author_name with
       | JStr name =>
           bind (unpack2 (split " " name))
             (λ fl, Ok ({["first" := JStr fl.1; "last" := JStr fl.2]} : dict))
       | _ =>
           raise_at "main.py:152 process_author" "AttributeError"
             "object has no attribute 'split'"
       end
     else Ok ∅)
    (λ author_dict, Ok (<["author" := JObj author_dict]> data)).

(** A quote as the session hands it out: the row, and the database the
    lazy [author] relationship reads when it is first touched. *)
Definition QuoteObj : Type := DB * Quote.t.

(** [quote.author]: the author row whose key is [author_id]. *)
Definition Quote_author (q : QuoteObj) : option Author.t :=
  get q.1 (Quote.author_id q.2).

Definition QuoteSchema : Schema QuoteObj :=
  mkSchema
    [("id", Int (λ q, Quote.id q.2));
     ("author", Nested Quote_author AuthorSchema (Some must_not_be_blank));
     ("content", Str (λ q, Quote.content q.2) true (Some must_not_be_blank));
     ("posted_at", DateTime (λ q, Quote.posted_at q.2))]
    (Some process_author) RAISE None.

Definition author_schema : Schema Author.t := AuthorSchema.
(** [AuthorSchema(many=True)]; [many] is in the choice of
    [Schema_dump_many] where the instance is used. *)
Definition authors_schema : Schema Author.t := AuthorSchema.
Definition quote_schema : Schema QuoteObj := QuoteSchema.
(** [QuoteSchema(many=True, only=("id", "content"))] *)
Definition quotes_schema : Schema QuoteObj :=
  mkSchema (declared_fields QuoteSchema) (pre_load QuoteSchema)
    (unknown QuoteSchema) (Some ["id"; "content"]).

(** ** DECORATORS *)

(** [use_args(schema)] of webargs, for a JSON body that is an object:
    load it, and on a validation failure abort with 422, the messages
    filed under the location they came from. *)
Definition use_args {A R} (schema : Schema A) (view : dict -> M R) (body : dict) : M R :=
  outcome ← lift (Schema_load schema body);
  match outcome with
  | Valid args => view args
  | Invalid errors =>
      raise (RaiseHTTP (UnprocessableEntity
        {["messages" := JObj {["json" := JObj errors]}; "headers" := JNull]}))
  end.

(** [response_schema(schema)]: run the view, dump what it returns (as
    the database is by then) and answer 200 with that JSON; a list goes
    through [jsonify], a mapping is rendered by Flask itself. *)
Definition response_schema {X R} (dump : DB -> R -> json) (f : X -> M R) (x : X)
    : M Response :=
  λ db, match f x db with
        | (db', Ok response) => (db', Ok (mkResponse 200 (dump db' response)))
        | (db', Raise r) => (db', Raise r)
        end.

Definition dump_author (_ : DB) (author : Author.t) : json :=
  JObj (Schema_dump author_schema author).

Definition dump_authors (_ : DB) (authors : list Author.t) : json :=
  JList (Schema_dump_many authors_schema authors).

Definition dump_quote (db : DB) (quote : Quote.t) : json :=
  JObj (Schema_dump quote_schema (db, quote)).

Definition dump_quotes (db : DB) (quotes : list Quote.t) : json :=
  JList (Schema_dump_many quotes_schema ((λ q, (db, q)) <$> quotes)).

Definition get_author_by_pk {T} (func : Author.t -> M T) (pk : Z) : M T :=
  λ db, match get db pk with
        | None =>
            (db, Raise (RaiseAPI (NotFoundException (Some (JStr "Author Not Found")) None)))
        | Some author => func author db
        end.

Definition get_quote_by_pk {T} (func : Quote.t -> M T) (pk : Z) : M T :=
  λ db, match get db pk with
        | None =>
            (db, Raise (RaiseAPI (NotFoundException (Some (JStr "Quote Not Found")) None)))
        | Some quote => func quote db
        end.

(** ** API: the view bodies, then each with its decorators *)

Definition get_authors (_ : unit) : M (list Author.t) :=
  λ db, (db, Ok (get_multi db 0 5)).

Definition get_author (author : Author.t) : M Author.t := ret author.

Definition get_quotes (_ : unit) : M (list Quote.t) :=
  λ db, (db, Ok (get_multi db 0 5)).

Definition get_quote (quote : Quote.t) : M Quote.t := ret quote.

Definition new_quote (args : dict) : M Quote.t :=
  match args !! "author" with
  | Some (JObj author_args) =>
      match author_args !! "first", author_args !! "last" with
      | Some (JStr first), Some (JStr last) =>
          author ← (λ db, match get_by_name db first last with
                          | Some author => (db, Ok author)
                          | None => crud_author_create author_args db
                          end);
          crud_quote_create (delete "author" args) author
      | _, _ => lift (raise_at "main.py:291 new_quote" "KeyError" "'first'")
      end
  | _ => lift (raise_at "main.py:291 new_quote" "KeyError" "'author'")
  end.

Definition route_get_authors : unit -> M Response :=
  response_schema dump_authors get_authors.

Definition route_get_author : Z -> M Response :=
  get_author_by_pk (response_schema dump_author get_author).

Definition route_get_quotes : unit -> M Response :=
  response_schema dump_quotes get_quotes.

Definition route_get_quote : Z -> M Response :=
  get_quote_by_pk (response_schema dump_quote get_quote).

Definition route_new_quote : dict -> M Response :=
  response_schema dump_quote (use_args quote_schema new_quote).

(** ** Flask: routing and the request boundary *)

(** A request as the router hands it to a view. [pk] is what the [int]
    converter read from the path; a path that matches no rule is
    [Unrouted]. What the router answers by itself (the redirect to a
    path with its trailing slash, 405 for a method the path has no rule
    for) never reaches the program and is left out. *)
Inductive Request :=
| GET_authors
| GET_author (pk : Z)
| GET_quotes
| GET_quote (pk : Z)
| POST_quotes (body : dict)
| Unrouted.

Definition dispatch_request (req : Request) : M Response :=
  match req with
  | GET_authors => route_get_authors ()
  | GET_author pk => route_get_author pk
  | GET_quotes => route_get_quotes ()
  | GET_quote pk => route_get_quote pk
  | POST_quotes body => route_new_quote body
  | Unrouted => raise (RaiseHTTP NotFound)
  end.

Definition request_method (req : Request) : string :=
  match req with
  | POST_quotes _ => "POST"
  | _ => "GET"
  end.

Definition request_path (req : Request) : string :=
  match req with
  | GET_authors => "/authors"
  | GET_author pk => "/authors/" +:+ NilZero.string_of_int (Z.to_int pk)
  | GET_quotes | POST_quotes _ => "/quotes/"
  | GET_quote pk => "/quotes/" +:+ NilZero.string_of_int (Z.to_int pk)
  | Unrouted => "/"
  end.

(** What the WSGI server gets back: a response, or the exception
    itself when Flask re-raises it (the development server then shows
    its debugger page, traceback included). *)
Inductive Outcome :=
| Responded (r : Response)
| Propagated (e : PyError).

(** [Flask.handle_user_exception]: the handler registered for the
    class of the exception, or for the code of an HTTP error; an
    exception with no handler is raised again. *)
Definition handle_user_exception (r : Raised) : Response + PyError :=
  match r with
  | RaiseAPI error => inl (handle_exception error)
  | RaiseHTTP NotFound => inl handle_not_found
  | RaiseHTTP (UnprocessableEntity data) => handle_unprocessable data
  | RaisePy e => inr e
  end.

(** The instance of [InternalServerError] that Flask passes to a
    handler registered for 500; it was never raised, so it has no
    traceback. *)
Definition InternalServerError : PyError :=
  mkPyError "werkzeug.exceptions.InternalServerError"
    "500 Internal Server Error: The server encountered an internal error and was unable to complete your request. Either the server is overloaded or there is an error in the application."
    [].

(** [Flask.handle_exception]: in debug mode exceptions propagate;
    otherwise Flask logs the exception with its traceback and calls the
    500 handler. *)
Definition Flask_handle_exception (debug : bool) (req : Request) (e : PyError)
    : list LogRecord * Outcome :=
  if debug then ([], Propagated e)
  else
    let logged :=
      mkLogRecord ERROR
        ("Exception on " +:+ request_path req +:+ " [" +:+ request_method req +:+ "]")
        (Some e) in
    let handled := handle_general_exception InternalServerError in
    (logged :: handled.1, Responded handled.2).

(** [Flask.wsgi_app] for one request. *)
Definition wsgi_app (debug : bool) (req : Request) (db : DB)
    : DB * list LogRecord * Outcome :=
  match dispatch_request req db with
  | (db', Ok response) => (db', [], Responded response)
  | (db', Raise r) =>
      match handle_user_exception r with
      | inl response => (db', [], Responded response)
      | inr e =>
          let handled := Flask_handle_exception debug req e in
          (db', handled.1, handled.2)
      end
  end.


End Program.

(** ** Integrity of the database *)

(** What the table declarations promise: [id] is a primary key in both
    tables, and [quote.author_id] is a foreign key into [author]. *)
Definition db_ok (db : DB) : Prop :=
  NoDup (pk <$> author_table db)
  ∧ NoDup (pk <$> quote_table db)
  ∧ Forall (λ q, Exists (λ a, Author.id a = Quote.author_id q) (author_table db))
      (quote_table db).

#[export] Instance db_ok_dec db : Decision (db_ok db).
Proof. unfold db_ok. apply _. Defined.

(** The databases the application can be in: it starts empty
    ([db.create_all()]) and changes only by serving requests. *)
Inductive reachable (t0 : datetime) : DB -> Prop :=
| reachable_empty : reachable t0 empty_db
| reachable_step debug req db :
    reachable t0 db -> reachable t0 (wsgi_app t0 debug req db).1.1.

(** [POST /quotes/] up to the view's return value, before it is dumped. *)
Definition create_quote (t0 : datetime) : dict -> M Quote.t :=
  use_args quote_schema (new_quote t0).

(** A module load time and the request of the specification's end-to-end
    example, for concrete runs. *)
Definition loaded_at : datetime := mkDatetime 2021 3 4 5 6 7 0.

Definition tim_peters (content : string) : dict :=
  {["content" := JStr content; "author" := JStr "Tim Peters"]}.

Definition db_after_one_post : DB :=
  (wsgi_app loaded_at false (POST_quotes (tim_peters "Simple is better than complex.")) empty_db).1.1.

(** ** Vocabulary of the statements below *)

(** [sep.join(tokens)], the inverse of [split]. *)
Fixpoint join (sep : ascii) (toks : list string) : string :=
  match toks with
  | [] => EmptyString
  | [t] => t
  | t :: ts => t +:+ String sep (join sep ts)
  end.

(** What the two load fields of [QuoteSchema] make of a mapping. *)
Abbreviation author_outcome data :=
  (Field_deserialize false (Nested_deserialize AuthorSchema) (Some must_not_be_blank) (data !! "author")).
Abbreviation content_outcome data :=
  (Field_deserialize true Str_deserialize (Some must_not_be_blank) (data !! "content")).

(** [dict(first=first, last=last)] *)
Abbreviation names_dict f l := ({["first" := JStr f; "last" := JStr l]} : dict).

(** The arguments [use_args] hands to [new_quote] after a valid load. *)
Definition quote_args (f l c : string) : dict :=
  {["author" := JObj (names_dict f l); "content" := JStr c]}.

(** The 422 that [use_args] aborts with for the given field errors. *)
Definition unprocessable (errors : dict) : Raised :=
  RaiseHTTP (UnprocessableEntity
    {["messages" := JObj {["json" := JObj errors]}; "headers" := JNull]}).


(** The generic 500 envelope. *)
Definition generic_500 : Response :=
  mkResponse 500 (JObj {["status" := JStr "error"; "message" := JStr "Something went wrong."]}).

(** What [author_schema] renders for an author row. *)
Definition author_json (a : Author.t) : json :=
  JObj {["id" := JNum (Author.id a);
         "first" := JStr (Author.first a);
         "last" := JStr (Author.last a);
         "formatted_name" := JStr (Author.last a +:+ ", " +:+ Author.first a)]}.

(** Integrity of a concrete database, by evaluation. *)
Ltac solve_db_ok := apply (bool_decide_unpack _); vm_compute; exact I.

(** * Properties *)

#[local] Open Scope list_scope.

(** ** [str.split] *)

Lemma split_not_nil sep s : split sep s ≠ [].
Proof. destruct s as [|c s]; simpl; [done|]. destruct (Ascii.eqb c sep); [done|]. by destruct (split sep s). Qed.

Lemma split_length sep s : List.length (split sep s) = S (count sep s).
Proof.
  induction s as [|c s IH]; simpl; [done|].
  destruct (Ascii.eqb c sep); simpl; [by rewrite IH|].
  destruct (split sep s) eqn:E; simpl in *; [done|]. done.
Qed.

(** No token contains the separator. *)
Lemma split_tokens sep s tok : tok ∈ split sep s → count sep tok = 0%nat.
Proof.
  revert tok. induction s as [|c s IH]; simpl; intros tok.
  - intros ->%list_elem_of_singleton. done.
  - destruct (Ascii.eqb c sep) eqn:Ec.
    + intros [->|Hin]%elem_of_cons; [done|]. by apply IH.
    + destruct (split sep s) as [|t ts] eqn:E.
      * intros ->%list_elem_of_singleton. simpl. by rewrite Ec.
      * intros [->|Hin]%elem_of_cons.
        -- simpl. rewrite Ec. simpl. apply IH. left.
        -- apply IH. by right.
Qed.

(** Joining the tokens with the separator gives the string back. *)
Lemma join_cons sep t ts : ts ≠ [] → join sep (t :: ts) = t +:+ String sep (join sep ts).
Proof. by destruct ts. Qed.

Lemma join_split sep s : join sep (split sep s) = s.
Proof.
  induction s as [|c s IH]; simpl; [done|].
  pose proof (split_not_nil sep s) as Hne.
  destruct (Ascii.eqb c sep) eqn:Ec.
  - apply Ascii.eqb_eq in Ec as ->.
    rewrite join_cons by done. by rewrite IH.
  - destruct (split sep s) as [|t ts] eqn:E; [done|].
    destruct ts as [|t' ts].
    + simpl in *. by rewrite IH.
    + rewrite join_cons by done. rewrite join_cons in IH by done.
      by rewrite <- IH.
Qed.

Lemma split_two sep s :
  count sep s = 1%nat →
  ∃ a b, split sep s = [a; b] ∧ s = a +:+ String sep b ∧ count sep a = 0%nat ∧ count sep b = 0%nat.
Proof.
  intros Hc. pose proof (split_length sep s) as Hl. rewrite Hc in Hl.
  destruct (split sep s) as [|a [|b [|]]] eqn:E; try done.
  exists a, b. split; [done|]. split.
  - rewrite <- (join_split sep s), E. done.
  - split; apply (split_tokens sep s); rewrite E; set_solver.
Qed.

Lemma quote_fields_unfold (data : dict) :
  deserialize_fields quote_schema data =
  deserialize_step (A:=QuoteObj) data ("author", Nested Quote_author AuthorSchema (Some must_not_be_blank))
    (deserialize_step (A:=QuoteObj) data ("content", Str (λ q, Quote.content q.2) true (Some must_not_be_blank)) (∅, ∅)).
Proof. reflexivity. Qed.

Lemma quote_load_names : load_names quote_schema = ["author"; "content"].
Proof. reflexivity. Qed.

Lemma quote_field_errors_other (data : dict) k :
  k ≠ "author" → k ≠ "content" → (deserialize_fields quote_schema data).2 !! k = None.
Proof.
  intros Ha Hc. rewrite quote_fields_unfold. unfold deserialize_step; cbn [fst snd Nested Str].
  destruct (author_outcome data), (content_outcome data); cbn [fst snd]; by simplify_map_eq.
Qed.

Lemma quote_errors_content (data : dict) m :
  content_outcome data = Errors m → load_errors quote_schema data !! "content" = Some m.
Proof.
  intros Hc. unfold load_errors; cbn [unknown quote_schema QuoteSchema].
  apply lookup_union_Some_l. rewrite quote_fields_unfold.
  unfold deserialize_step; cbn [fst snd Nested Str]. rewrite Hc.
  destruct (author_outcome data); cbn [fst snd]; by simplify_map_eq.
Qed.

Lemma quote_errors_author (data : dict) m :
  author_outcome data = Errors m → load_errors quote_schema data !! "author" = Some m.
Proof.
  intros Ha. unfold load_errors; cbn [unknown quote_schema QuoteSchema].
  apply lookup_union_Some_l. rewrite quote_fields_unfold.
  unfold deserialize_step; cbn [fst snd Nested Str]. rewrite Ha.
  destruct (content_outcome data); cbn [fst snd]; by simplify_map_eq.
Qed.

Lemma quote_errors_unknown (data : dict) k v :
  data !! k = Some v → k ≠ "author" → k ≠ "content" →
  load_errors quote_schema data !! k = Some (JList [JStr "Unknown field."]).
Proof.
  intros Hk Ha Hc. unfold load_errors; cbn [unknown quote_schema QuoteSchema].
  rewrite lookup_union_r by by apply quote_field_errors_other.
  rewrite lookup_fmap. unfold unknown_keys.
  erewrite map_lookup_filter_Some_2; [done|done|].
  rewrite quote_load_names. cbn [fst].
  rewrite !not_elem_of_cons. split_and!; [done..|]. apply not_elem_of_nil.
Qed.

Lemma invalid_of_error {A} (s : Schema A) (data : dict) k m :
  load_errors s data !! k = Some m → Schema_deserialize s data = Invalid (load_errors s data).
Proof.
  intros Hk. unfold Schema_deserialize. rewrite bool_decide_eq_false_2; [done|].
  intros He. rewrite He in Hk. by rewrite lookup_empty in Hk.
Qed.

Lemma quote_valid (data : dict) a c :
  author_outcome data = Value a → content_outcome data = Value c →
  dom data ⊆ {["author"; "content"]} →
  Schema_deserialize quote_schema data = Valid {["author" := a; "content" := c]}.
Proof.
  intros Ha Hc Hdom.
  assert (unknown_keys quote_schema data = ∅) as Hu.
  { apply map_empty_filter_2. intros k v Hk Hnot. apply Hnot.
    rewrite quote_load_names. cbn [fst].
    assert (k ∈ dom data) as Hin by (apply elem_of_dom; eauto).
    apply Hdom in Hin.
    apply elem_of_union in Hin as [->%elem_of_singleton| ->%elem_of_singleton];
      [left|right; left]. }
  unfold Schema_deserialize, load_errors, load_result; cbn [unknown quote_schema QuoteSchema].
  rewrite Hu, fmap_empty, quote_fields_unfold.
  unfold deserialize_step; cbn [fst snd Nested Str]. rewrite Ha, Hc; cbn [fst snd].
  rewrite (right_id_L ∅ (∪)). rewrite bool_decide_eq_true_2 by done.
  reflexivity.
Qed.

Lemma quote_valid_inv (data args : dict) :
  Schema_deserialize quote_schema data = Valid args →
  ∃ c, content_outcome data = Value c
       ∧ (match author_outcome data with
          | Value a => args = {["author" := a; "content" := c]}
          | Missing => args = {["content" := c]}
          | Errors _ => False
          end)
       ∧ dom data ⊆ {["author"; "content"]}.
Proof.
  unfold Schema_deserialize. case_bool_decide as He; [|done]. intros [= <-].
  destruct (content_outcome data) as [c| |m] eqn:Hc.
  - exists c. split; [done|]. split.
    + destruct (author_outcome data) as [a| |m] eqn:Ha.
      * unfold load_result; cbn [unknown quote_schema QuoteSchema].
        rewrite quote_fields_unfold. unfold deserialize_step; cbn [fst snd Nested Str].
        rewrite Ha, Hc; cbn [fst snd]. reflexivity.
      * unfold load_result; cbn [unknown quote_schema QuoteSchema].
        rewrite quote_fields_unfold. unfold deserialize_step; cbn [fst snd Nested Str].
        rewrite Ha, Hc; cbn [fst snd]. reflexivity.
      * apply quote_errors_author in Ha. rewrite He in Ha. by rewrite lookup_empty in Ha.
    + intros k [v Hk]%elem_of_dom.
      destruct (decide (k = "author")) as [->|Hna]; [set_solver|].
      destruct (decide (k = "content")) as [->|Hnc]; [set_solver|].
      pose proof (quote_errors_unknown data k v Hk Hna Hnc) as Hu.
      rewrite He in Hu. by rewrite lookup_empty in Hu.
  - exfalso. revert Hc. unfold Field_deserialize. 
    destruct (data !! "content") as [[]|]; try done.
    all: cbn; try done. unfold must_not_be_blank. by destruct (truthy _).
  - apply quote_errors_content in Hc. rewrite He in Hc. by rewrite lookup_empty in Hc.
Qed.

(** ** process_author *)


Lemma split_two_nonempty s a b : split " " s = [a; b] → s ≠ "".
Proof. by intros Hs ->. Qed.

Lemma truthy_JStr s : truthy (JStr s) = true ↔ s ≠ "".
Proof.
  simpl. rewrite negb_true_iff. split.
  - intros H ->. done.
  - intros H. apply String.eqb_neq. done.
Qed.

Lemma process_author_two (body : dict) name f l :
  body !! "author" = Some (JStr name) → split " " name = [f; l] →
  process_author body = Ok (<["author" := JObj (names_dict f l)]> body).
Proof.
  intros Hb Hs. unfold process_author. rewrite Hb. cbn [default from_option id].
  rewrite (proj2 (truthy_JStr name)) by by eapply split_two_nonempty.
  rewrite Hs. reflexivity.
Qed.

Lemma process_author_falsy (body : dict) :
  truthy (default JNull (body !! "author")) = false →
  process_author body = Ok (<["author" := JObj ∅]> body).
Proof. intros Hf. unfold process_author. rewrite Hf. reflexivity. Qed.

Lemma process_author_raises (body : dict) name :
  body !! "author" = Some (JStr name) → name ≠ "" → List.length (split " " name) ≠ 2%nat →
  ∃ msg, process_author body = raise_at "main.py:152 process_author" "ValueError" msg.
Proof.
  intros Hb Hne Hl. unfold process_author. rewrite Hb. cbn [default from_option id].
  rewrite (proj2 (truthy_JStr name)) by done.
  destruct (split " " name) as [|a [|b [|c rest]]]; try done; eexists; reflexivity.
Qed.

Lemma process_author_inv (body data : dict) :
  process_author body = Ok data →
  ∃ ad, data = <["author" := JObj ad]> body
        ∧ ((ad = ∅ ∧ truthy (default JNull (body !! "author")) = false)
           ∨ ∃ name f l, body !! "author" = Some (JStr name) ∧ split " " name = [f; l]
                         ∧ ad = names_dict f l).
Proof.
  unfold process_author.
  destruct (truthy (default JNull (body !! "author"))) eqn:Ht.
  - destruct (body !! "author") as [v|] eqn:Hb; [|done]. cbn [default from_option id] in *.
    destruct v as [| | |name| |]; try done.
    destruct (split " " name) as [|f [|l [|]]] eqn:Hs; try done.
    cbn. intros [= <-]. eexists. split; [done|]. right. by exists name, f, l.
  - cbn. intros [= <-]. exists ∅. split; [done|]. by left.
Qed.

Lemma author_outcome_names (body : dict) f l :
  author_outcome (<["author" := JObj (names_dict f l)]> body) = Value (JObj (names_dict f l)).
Proof. rewrite lookup_insert_eq. vm_compute. reflexivity. Qed.

Lemma author_outcome_empty (body : dict) :
  author_outcome (<["author" := JObj ∅]> body) = Errors (JList [JStr "Data not provided."]).
Proof. rewrite lookup_insert_eq. vm_compute. reflexivity. Qed.

Lemma content_outcome_insert (body : dict) v :
  content_outcome (<["author" := v]> body) = content_outcome body.
Proof. by rewrite lookup_insert_ne. Qed.

Lemma content_outcome_value (body : dict) c :
  content_outcome body = Value c ↔ ∃ s, c = JStr s ∧ s ≠ "" ∧ body !! "content" = Some (JStr s).
Proof.
  unfold Field_deserialize. split.
  - destruct (body !! "content") as [[| | |s| |]|]; try done. cbn.
    unfold must_not_be_blank. destruct (truthy (JStr s)) eqn:Ht; [|done].
    intros [= <-]. exists s. split; [done|]. split; [|done]. by apply truthy_JStr.
  - intros (s & -> & Hne & ->). cbn. unfold must_not_be_blank.
    by rewrite (proj2 (truthy_JStr s)).
Qed.

Lemma content_outcome_missing (body : dict) :
  body !! "content" = None →
  content_outcome body = Errors (JList [JStr "Missing data for required field."]).
Proof. by intros ->. Qed.

Lemma content_outcome_blank (body : dict) :
  body !! "content" = Some (JStr "") →
  content_outcome body = Errors (JList [JStr "Data not provided."]).
Proof. by intros ->. Qed.

Lemma Author_kwargs_names f l : Author_kwargs (names_dict f l) = Ok (Author_init f l).
Proof. vm_compute. reflexivity. Qed.

Lemma Quote_kwargs_content t0 a c aid :
  Quote_kwargs t0 (delete "author" ({["author" := a; "content" := JStr c]} : dict)) aid
  = Ok (Quote_init t0 c aid None).
Proof. vm_compute. reflexivity. Qed.

(** ** The database *)

Lemma foldr_max_ge (j : Z) (rest : list Z) :
  j <= foldr Z.max j rest ∧ ∀ i, i ∈ rest → i <= foldr Z.max j rest.
Proof.
  induction rest as [|k rest [IHj IHr]]; simpl.
  - split; [lia|]. by intros i ?%elem_of_nil.
  - split; [lia|]. intros i [->|Hin]%elem_of_cons; [lia|].
    specialize (IHr i Hin). lia.
Qed.

Lemma next_id_gt ids i : i ∈ ids → i < next_id ids.
Proof.
  destruct ids as [|j rest]; [by intros ?%elem_of_nil|]. simpl.
  destruct (foldr_max_ge j rest) as [Hj Hr].
  intros [->|Hin]%elem_of_cons; [lia|]. specialize (Hr i Hin). lia.
Qed.

Lemma next_id_fresh ids : next_id ids ∉ ids.
Proof. intros Hin%next_id_gt. lia. Qed.

Lemma NoDup_snoc_fresh {R} (key : R → Z) (l : list R) (new : Z → R) :
  (∀ i, key (new i) = i) →
  NoDup (key <$> l) → NoDup (key <$> (l ++ [new (next_id (key <$> l))])).
Proof.
  intros Hkey Hnd. rewrite fmap_app. apply NoDup_app. split; [done|]. split.
  - intros i Hi. simpl. rewrite Hkey. intros ->%list_elem_of_singleton.
    by apply next_id_fresh in Hi.
  - simpl. apply NoDup_singleton.
Qed.

Lemma find_unique {R} (key : R → Z) (l : list R) (a : R) :
  NoDup (key <$> l) → a ∈ l → List.find (λ r, bool_decide (key r = key a)) l = Some a.
Proof.
  induction l as [|b l IH]; [by intros _ ?%elem_of_nil|].
  rewrite fmap_cons, NoDup_cons. intros [Hb Hnd] [->|Hin]%elem_of_cons; simpl.
  - by rewrite bool_decide_eq_true_2.
  - rewrite bool_decide_eq_false_2; [by apply IH|].
    intros Heq. apply Hb. rewrite Heq. by apply list_elem_of_fmap_2.
Qed.

Lemma find_Some_elem {R} (P : R → bool) (l : list R) a :
  List.find P l = Some a → a ∈ l ∧ P a = true.
Proof. intros [Hin HP]%find_some. split; [by apply list_elem_of_In|done]. Qed.

Lemma find_snoc_None {R} (P : R → bool) (l : list R) a :
  List.find P l = None → List.find P (l ++ [a]) = if P a then Some a else None.
Proof. induction l as [|b l IH]; simpl; [done|]. destruct (P b); [done|]. apply IH. Qed.


Lemma get_by_name_Some db f l a :
  get_by_name db f l = Some a → a ∈ author_table db ∧ Author.first a = f ∧ Author.last a = l.
Proof.
  intros [Hin HP]%find_Some_elem. split; [done|].
  apply andb_true_iff in HP as [H1%bool_decide_eq_true H2%bool_decide_eq_true]. done.
Qed.

Lemma args_author (a c : json) : ({["author" := a; "content" := c]} : dict) !! "author" = Some a.
Proof. reflexivity. Qed.

Lemma names_first f l : names_dict f l !! "first" = Some (JStr f).
Proof. reflexivity. Qed.

Lemma names_last f l : names_dict f l !! "last" = Some (JStr l).
Proof. reflexivity. Qed.

(** ** new_quote on validated arguments *)


Lemma new_quote_found t0 db f l c a :
  get_by_name db f l = Some a →
  let q := Quote.mk (next_id (pk <$> quote_table db)) c (Author.id a) t0 in
  new_quote t0 (quote_args f l c) db = (mkDB (author_table db) (quote_table db ++ [q]), Ok q).
Proof.
  intros Hg q. unfold new_quote, quote_args. rewrite args_author, names_first, names_last.
  unfold mbind, M_bind, mbind_M. rewrite Hg.
  unfold crud_quote_create. rewrite Quote_kwargs_content. reflexivity.
Qed.

Lemma new_quote_created t0 db f l c :
  get_by_name db f l = None →
  let a := Author.mk (next_id (pk <$> author_table db)) f l in
  let q := Quote.mk (next_id (pk <$> quote_table db)) c (Author.id a) t0 in
  new_quote t0 (quote_args f l c) db
  = (mkDB (author_table db ++ [a]) (quote_table db ++ [q]), Ok q).
Proof.
  intros Hg a q. unfold new_quote, quote_args. rewrite args_author, names_first, names_last.
  unfold mbind, M_bind, mbind_M. rewrite Hg.
  unfold crud_author_create, create. unfold mbind, M_bind, mbind_M, lift.
  rewrite Author_kwargs_names. cbn [insert_row].
  unfold crud_quote_create. rewrite Quote_kwargs_content. reflexivity.
Qed.

(** ** The POST pipeline *)


Lemma create_quote_raise t0 (body : dict) db r :
  process_author body = Raise r → create_quote t0 body db = (db, Raise r).
Proof.
  intros Hp. unfold create_quote, use_args, Schema_load; cbn [pre_load quote_schema QuoteSchema].
  unfold mbind, M_bind, mbind_M, lift. by rewrite Hp.
Qed.

Lemma create_quote_invalid t0 (body data errors : dict) db :
  process_author body = Ok data → Schema_deserialize quote_schema data = Invalid errors →
  create_quote t0 body db = (db, Raise (unprocessable errors)).
Proof.
  intros Hp Hd. unfold create_quote, use_args, Schema_load; cbn [pre_load quote_schema QuoteSchema].
  unfold mbind, M_bind, mbind_M, lift. rewrite Hp. cbn [bind]. by rewrite Hd.
Qed.

Lemma create_quote_valid t0 (body data args : dict) db :
  process_author body = Ok data → Schema_deserialize quote_schema data = Valid args →
  create_quote t0 body db = new_quote t0 args db.
Proof.
  intros Hp Hd. unfold create_quote, use_args, Schema_load; cbn [pre_load quote_schema QuoteSchema].
  unfold mbind, M_bind, mbind_M, lift. rewrite Hp. cbn [bind]. by rewrite Hd.
Qed.

Lemma handle_unprocessable_errors (errors : dict) :
  handle_user_exception (unprocessable errors)
  = inl (handle_exception (InvalidPayload (Some (JObj errors)) None)).
Proof. reflexivity. Qed.

Lemma wsgi_post t0 debug (body : dict) db :
  wsgi_app t0 debug (POST_quotes body) db =
  match create_quote t0 body db with
  | (db', Ok q) => (db', [], Responded (mkResponse 200 (dump_quote db' q)))
  | (db', Raise r) =>
      match handle_user_exception r with
      | inl response => (db', [], Responded response)
      | inr e => (db', (Flask_handle_exception debug (POST_quotes body) e).1,
                  (Flask_handle_exception debug (POST_quotes body) e).2)
      end
  end.
Proof.
  unfold wsgi_app, dispatch_request, route_new_quote, response_schema.
  change (use_args quote_schema (new_quote t0) body db) with (create_quote t0 body db).
  by destruct (create_quote t0 body db) as [db' [q|r]].
Qed.

Lemma wsgi_post_invalid t0 debug (body data errors : dict) db :
  process_author body = Ok data → Schema_deserialize quote_schema data = Invalid errors →
  wsgi_app t0 debug (POST_quotes body) db
  = (db, [], Responded (handle_exception (InvalidPayload (Some (JObj errors)) None))).
Proof.
  intros Hp Hd. rewrite wsgi_post, (create_quote_invalid _ _ _ _ _ Hp Hd).
  by rewrite handle_unprocessable_errors.
Qed.

Lemma dom_process_author (body : dict) v : dom (<["author" := v]> body) = {["author"]} ∪ dom body.
Proof. apply dom_insert_L. Qed.

Lemma create_quote_ok t0 (body : dict) db name f l c :
  body !! "author" = Some (JStr name) → split " " name = [f; l] →
  body !! "content" = Some (JStr c) → c ≠ "" → dom body ⊆ {["author"; "content"]} →
  create_quote t0 body db = new_quote t0 (quote_args f l c) db.
Proof.
  intros Ha Hs Hc Hne Hdom.
  apply (create_quote_valid _ _ _ _ _ (process_author_two _ _ _ _ Ha Hs)).
  apply quote_valid.
  - apply author_outcome_names.
  - rewrite content_outcome_insert. apply content_outcome_value. eauto.
  - rewrite dom_insert_L. set_solver.
Qed.

Lemma create_quote_ok_inv t0 (body : dict) db name f l db' q :
  body !! "author" = Some (JStr name) → split " " name = [f; l] →
  create_quote t0 body db = (db', Ok q) →
  ∃ c, body !! "content" = Some (JStr c) ∧ c ≠ "" ∧ dom body ⊆ {["author"; "content"]}
       ∧ new_quote t0 (quote_args f l c) db = (db', Ok q).
Proof.
  intros Ha Hs Hcq. pose proof (process_author_two _ _ _ _ Ha Hs) as Hp.
  destruct (Schema_deserialize quote_schema (<["author" := JObj (names_dict f l)]> body))
    as [args|errors] eqn:Hd.
  - rewrite (create_quote_valid _ _ _ _ _ Hp Hd) in Hcq.
    apply quote_valid_inv in Hd as (c' & Hc & Hargs & Hdom).
    rewrite author_outcome_names in Hargs. rewrite content_outcome_insert in Hc.
    apply content_outcome_value in Hc as (c & -> & Hne & Hc).
    exists c. split_and!; [done..| |by subst].
    rewrite dom_insert_L in Hdom. set_solver.
  - rewrite (create_quote_invalid _ _ _ _ _ Hp Hd) in Hcq. done.
Qed.

Lemma db_ok_snoc_quote db c a :
  db_ok db → a ∈ author_table db →
  ∀ t0, db_ok (mkDB (author_table db)
            (quote_table db ++ [Quote.mk (next_id (pk <$> quote_table db)) c (Author.id a) t0])).
Proof.
  intros (Hna & Hnq & Hfk) Hin t0. split_and!; cbn [author_table quote_table].
  - done.
  - by apply (NoDup_snoc_fresh Quote.id _ (λ i, Quote.mk i c (Author.id a) t0)).
  - apply Forall_app. split; [done|]. apply Forall_singleton, Exists_exists. by exists a.
Qed.

Lemma db_ok_snoc_author db f l :
  db_ok db → db_ok (mkDB (author_table db ++ [Author.mk (next_id (pk <$> author_table db)) f l])
                     (quote_table db)).
Proof.
  intros (Hna & Hnq & Hfk). split_and!; cbn [author_table quote_table].
  - by apply (NoDup_snoc_fresh Author.id _ (λ i, Author.mk i f l)).
  - done.
  - eapply Forall_impl; [done|]. intros q Hq. apply Exists_app. by left.
Qed.

(** What a successful [new_quote] did. *)
Lemma new_quote_ok t0 db f l c db' q :
  db_ok db → new_quote t0 (quote_args f l c) db = (db', Ok q) →
  ∃ a, a ∈ author_table db' ∧ Author.first a = f ∧ Author.last a = l
       ∧ Quote.author_id q = Author.id a
       ∧ get_by_name db' f l = Some a
       ∧ (∀ a0, get_by_name db f l = Some a0 → a = a0 ∧ author_table db' = author_table db)
       ∧ (get_by_name db f l = None → author_table db' = author_table db ++ [a])
       ∧ quote_table db' = quote_table db ++ [q]
       ∧ Quote.id q = next_id (pk <$> quote_table db)
       ∧ Quote.content q = c ∧ Quote.posted_at q = t0
       ∧ db_ok db'.
Proof.
  intros Hok. destruct (get_by_name db f l) as [a|] eqn:Hg.
  - rewrite (new_quote_found _ _ _ _ _ _ Hg). intros [= <- <-].
    destruct (get_by_name_Some _ _ _ _ Hg) as (Hin & Hf & Hl).
    exists a. split_and!; try done.
    + by intros a0 [= <-].
    + by apply db_ok_snoc_quote.
  - rewrite (new_quote_created _ _ _ _ _ Hg). intros [= <- <-].
    set (a := Author.mk (next_id (pk <$> author_table db)) f l).
    exists a. split_and!; try done.
    + cbn [author_table]. set_solver.
    + unfold get_by_name in *. cbn [author_table]. rewrite (find_snoc_None _ _ _ Hg).
      cbn. by rewrite !bool_decide_eq_true_2.
    + apply (db_ok_snoc_quote (mkDB (author_table db ++ [a]) (quote_table db)) c a).
      * by apply db_ok_snoc_author.
      * cbn [author_table]. set_solver.
Qed.

Lemma new_quote_total t0 db f l c : ∃ db' q, new_quote t0 (quote_args f l c) db = (db', Ok q).
Proof.
  destruct (get_by_name db f l) as [a|] eqn:Hg.
  - rewrite (new_quote_found _ _ _ _ _ _ Hg). eauto.
  - rewrite (new_quote_created _ _ _ _ _ Hg). eauto.
Qed.

Lemma get_author_of_elem db (a : Author.t) :
  db_ok db → a ∈ author_table db → get db (Author.id a) = Some a.
Proof. intros (Hna & _) Hin. by apply (find_unique Author.id). Qed.

(** ** Every request keeps the database well formed *)

Lemma content_outcome_not_missing (data : dict) : content_outcome data ≠ Missing.
Proof.
  unfold Field_deserialize. destruct (data !! "content") as [[| | |s| |]|]; try done.
  cbn. unfold must_not_be_blank. by destruct (truthy _).
Qed.

(** A POST either raises before anything is written, or runs [new_quote]
    on a complete set of validated arguments. *)
Lemma create_quote_cases t0 (body : dict) db :
  (∃ r, create_quote t0 body db = (db, Raise r)
        ∧ ((∃ e, r = RaisePy e) ∨ ∃ errors, r = unprocessable errors))
  ∨ (∃ name f l c, body !! "author" = Some (JStr name) ∧ split " " name = [f; l]
       ∧ body !! "content" = Some (JStr c) ∧ c ≠ "" ∧ dom body ⊆ {["author"; "content"]}
       ∧ create_quote t0 body db = new_quote t0 (quote_args f l c) db).
Proof.
  destruct (process_author body) as [data|r] eqn:Hp.
  - destruct (Schema_deserialize quote_schema data) as [args|errors] eqn:Hd.
    + right. apply process_author_inv in Hp as (ad & -> & [[-> _]|(name & f & l & Ha & Hs & ->)]).
      * apply quote_valid_inv in Hd as (c & _ & Hargs & _).
        by rewrite author_outcome_empty in Hargs.
      * pose proof Hd as Hd'. apply quote_valid_inv in Hd' as (c' & Hc & Hargs & Hdom).
        rewrite content_outcome_insert in Hc.
        apply content_outcome_value in Hc as (c & -> & Hne & Hc).
        rewrite dom_insert_L in Hdom.
        exists name, f, l, c. split_and!; try done.
        -- clear -Hdom. set_solver.
        -- by apply create_quote_ok with name; [..|clear -Hdom; set_solver].
    + left. eexists. split; [by eapply create_quote_invalid|]. right. eauto.
  - left. exists r. split; [by apply create_quote_raise|]. left.
    revert Hp. unfold process_author.
    destruct (truthy _); [|done].
    destruct (default JNull (body !! "author")) as [| | |name| |]; cbn; try (intros [= <-]; eauto).
    destruct (split " " name) as [|a [|b [|]]]; cbn; try (intros [= <-]; eauto).
Qed.

Lemma wsgi_db_ok t0 debug req db : db_ok db → db_ok (wsgi_app t0 debug req db).1.1.
Proof.
  intros Hok. destruct req as [|pk| |pk|body|].
  - done.
  - unfold wsgi_app, dispatch_request, route_get_author, get_author_by_pk.
    by destruct (get db pk).
  - done.
  - unfold wsgi_app, dispatch_request, route_get_quote, get_quote_by_pk.
    by destruct (get db pk).
  - rewrite wsgi_post.
    destruct (create_quote_cases t0 body db) as [(r & -> & _)|(name & f & l & c & _ & _ & _ & _ & _ & ->)].
    + by destruct (handle_user_exception r).
    + destruct (new_quote_total t0 db f l c) as (db' & q & Hnq). rewrite Hnq. cbn.
      by destruct (new_quote_ok _ _ _ _ _ _ _ Hok Hnq)
        as (a & _ & _ & _ & _ & _ & _ & _ & _ & _ & _ & _ & Hok').
  - done.
Qed.

Lemma db_ok_empty : db_ok empty_db.
Proof. split_and!; cbn; [apply NoDup_nil_2..|apply Forall_nil_2]. Qed.

(** X1. In every database the application can reach from the empty
    one by serving requests, the keys of each table are pairwise
    different and every quote's [author_id] is the key of an author row. *)
Theorem reachable_db_ok t0 db : reachable t0 db → db_ok db.
Proof. induction 1; [apply db_ok_empty|by apply wsgi_db_ok]. Qed.

Lemma reachable_db_ok_witness : db_ok db_after_one_post.
Proof. apply (reachable_db_ok loaded_at db_after_one_post).
  unfold db_after_one_post. apply reachable_step, reachable_empty. Defined.

(** * The claims *)



(** C2. Two POSTs one after the other, both successful. The quotes get
    different keys. When both name the same (first, last) pair, the second
    quote refers to the author of the first and the author table is left
    as it was; when the pairs differ in any character, the two quotes
    refer to different authors. *)
Theorem C2_author_reuse (t0 : datetime) (db db1 db2 : DB) (body1 body2 : dict)
    (n1 f1 l1 n2 f2 l2 : string) (q1 q2 : Quote.t) :
  db_ok db →
  body1 !! "author" = Some (JStr n1) → split " " n1 = [f1; l1] →
  body2 !! "author" = Some (JStr n2) → split " " n2 = [f2; l2] →
  create_quote t0 body1 db = (db1, Ok q1) →
  create_quote t0 body2 db1 = (db2, Ok q2) →
  Quote.id q2 ≠ Quote.id q1
  ∧ ((f1, l1) = (f2, l2) →
       Quote.author_id q2 = Quote.author_id q1 ∧ author_table db2 = author_table db1)
  ∧ ((f1, l1) ≠ (f2, l2) → Quote.author_id q2 ≠ Quote.author_id q1).
Proof.
  intros Hok Ha1 Hs1 Ha2 Hs2 Hc1 Hc2.
  destruct (create_quote_ok_inv _ _ _ _ _ _ _ _ Ha1 Hs1 Hc1) as (c1 & _ & _ & _ & Hn1).
  destruct (create_quote_ok_inv _ _ _ _ _ _ _ _ Ha2 Hs2 Hc2) as (c2 & _ & _ & _ & Hn2).
  destruct (new_quote_ok _ _ _ _ _ _ _ Hok Hn1)
    as (a1 & Hin1 & Hf1 & Hl1 & Hid1 & Hg1 & _ & _ & Hq1 & Hk1 & _ & _ & Hok1).
  destruct (new_quote_ok _ _ _ _ _ _ _ Hok1 Hn2)
    as (a2 & Hin2 & Hf2 & Hl2 & Hid2 & Hg2 & Hfound & Hnew & Hq2 & Hk2 & _ & _ & Hok2).
  split_and!.
  - rewrite Hk2, Hq1. intros Heq.
    assert (Quote.id q1 ∈ pk <$> (quote_table db ++ [q1])) as Hin.
    { apply list_elem_of_fmap_2. set_solver. }
    apply next_id_gt in Hin. cbn [pk Quote_Model] in *. lia.
  - intros [= <- <-]. destruct (Hfound a1 Hg1) as [-> Htab]. by rewrite Hid1, Hid2.
  - intros Hne Heq. apply Hne.
    assert (a1 ∈ author_table db2) as Hin1'.
    { destruct (get_by_name db1 f2 l2) as [a0|] eqn:Hg.
      - destruct (Hfound a0 eq_refl) as [_ ->]. done.
      - rewrite (Hnew eq_refl). set_solver. }
    assert (a1 = a2) as <-.
    { pose proof (get_author_of_elem _ _ Hok2 Hin1') as G1.
      pose proof (get_author_of_elem _ _ Hok2 Hin2) as G2.
      rewrite <- Hid1, <- Heq, Hid2, G2 in G1. congruence. }
    congruence.
Qed.

Lemma C2_witness :
  ∃ db1 q1 db2 q2,
    create_quote loaded_at (tim_peters "Simple is better than complex.") empty_db = (db1, Ok q1)
    ∧ create_quote loaded_at (tim_peters "Explicit is better than implicit.") db1 = (db2, Ok q2)
    ∧ Quote.id q2 ≠ Quote.id q1
    ∧ Quote.author_id q2 = Quote.author_id q1
    ∧ author_table db2 = author_table db1.
Proof.
  set (q1 := Quote.mk 1 "Simple is better than complex." 1 loaded_at).
  set (q2 := Quote.mk 2 "Explicit is better than implicit." 1 loaded_at).
  set (db1 := mkDB [Author.mk 1 "Tim" "Peters"] [q1]).
  set (db2 := mkDB [Author.mk 1 "Tim" "Peters"] [q1; q2]).
  assert (create_quote loaded_at (tim_peters "Simple is better than complex.") empty_db
          = (db1, Ok q1)) as H1 by (vm_compute; reflexivity).
  assert (create_quote loaded_at (tim_peters "Explicit is better than implicit.") db1
          = (db2, Ok q2)) as H2 by (vm_compute; reflexivity).
  exists db1, q1, db2, q2. split; [exact H1|]. split; [exact H2|].
  assert (db_ok empty_db) as Hok by solve_db_ok.
  assert (tim_peters "Simple is better than complex." !! "author" = Some (JStr "Tim Peters"))
    as Ha1 by reflexivity.
  assert (tim_peters "Explicit is better than implicit." !! "author" = Some (JStr "Tim Peters"))
    as Ha2 by reflexivity.
  assert (split " " "Tim Peters" = ["Tim"; "Peters"]) as Hs by reflexivity.
  destruct (C2_author_reuse loaded_at empty_db db1 db2 _ _ _ _ _ _ _ _ q1 q2
              Hok Ha1 Hs Ha2 Hs H1 H2) as (Hids & Hsame & _).
  destruct (Hsame eq_refl) as [Hauthor Htable].
  split; [exact Hids|]. split; [exact Hauthor|exact Htable].
Defined.

(** C3 (as the code has it). When [process_author] completes, a POST
    whose [content] is missing or the empty string, or whose [author] is
    absent or falsy (so that the normalized author is the empty object),
    is answered 400 with the InvalidPayload envelope, the field errors as
    its message, and the database is left as it was. A blank [content] and
    an empty author carry "Data not provided."; a missing [content] carries
    the required-field message. *)
Theorem C3_blank_input_rejected (t0 : datetime) (debug : bool) (db : DB)
    (body data : dict) :
  process_author body = Ok data →
  body !! "content" = None ∨ body !! "content" = Some (JStr "")
    ∨ truthy (default JNull (body !! "author")) = false →
  ∃ errors : dict,
    wsgi_app t0 debug (POST_quotes body) db
    = (db, [], Responded (mkResponse 400
         (JObj {["status" := JStr "error"; "message" := JObj errors]})))
    ∧ (body !! "content" = None →
         errors !! "content" = Some (JList [JStr "Missing data for required field."]))
    ∧ (body !! "content" = Some (JStr "") →
         errors !! "content" = Some (JList [JStr "Data not provided."]))
    ∧ (truthy (default JNull (body !! "author")) = false →
         errors !! "author" = Some (JList [JStr "Data not provided."])).
Proof.
  intros Hp Hcase. exists (load_errors quote_schema data).
  destruct (process_author_inv _ _ Hp) as (ad & -> & Had).
  set (data := <["author" := JObj ad]> body) in *.
  assert (∀ m, content_outcome body = Errors m → load_errors quote_schema data !! "content" = Some m)
    as Hcontent.
  { intros m Hm. apply quote_errors_content. unfold data. by rewrite content_outcome_insert. }
  assert (truthy (default JNull (body !! "author")) = false →
          load_errors quote_schema data !! "author" = Some (JList [JStr "Data not provided."]))
    as Hauthor.
  { intros Hf. destruct Had as [[-> _]|(name & f & l & Ha & Hs & _)].
    - apply quote_errors_author, author_outcome_empty.
    - rewrite Ha in Hf. cbn in Hf. apply negb_false_iff, String.eqb_eq in Hf as ->. done. }
  split_and!.
  - assert (∃ k m, load_errors quote_schema data !! k = Some m) as (k & m & Hkm).
    { destruct Hcase as [Hc|[Hc|Hf]].
      + exists "content". eexists. apply Hcontent. by apply content_outcome_missing.
      + exists "content". eexists. apply Hcontent. by apply content_outcome_blank.
      + exists "author". eexists. by apply Hauthor. }
    apply (wsgi_post_invalid t0 debug body data _ db Hp).
    by eapply invalid_of_error.
  - intros Hc. apply Hcontent. by apply content_outcome_missing.
  - intros Hc. apply Hcontent. by apply content_outcome_blank.
  - done.
Qed.

Lemma C3_witness :
  ∃ errors : dict,
    wsgi_app loaded_at false (POST_quotes {["author" := JStr "Tim Peters"]}) empty_db
    = (empty_db, [], Responded (mkResponse 400
         (JObj {["status" := JStr "error"; "message" := JObj errors]})))
    ∧ errors !! "content" = Some (JList [JStr "Missing data for required field."]).
Proof.
  assert (process_author {["author" := JStr "Tim Peters"]}
          = Ok (<["author" := JObj {["first" := JStr "Tim"; "last" := JStr "Peters"]}]>
                  {["author" := JStr "Tim Peters"]})) as Hp by reflexivity.
  assert (({["author" := JStr "Tim Peters"]} : dict) !! "content" = None) as Hc by reflexivity.
  destruct (C3_blank_input_rejected loaded_at false empty_db _ _ Hp (or_introl Hc))
    as (errors & Hresp & Hmissing & _).
  exists errors. split; [exact Hresp|exact (Hmissing Hc)].
Defined.

(** A missing [content] is not always answered 400: here the one-word
    author makes [process_author] raise before validation starts, and the
    answer is the generic 500 (or, in debug mode, no response at all). *)
Lemma C3_counterexample :
  ({["author" := JStr "Madonna"]} : dict) !! "content" = None
  ∧ (∃ log, wsgi_app loaded_at false (POST_quotes {["author" := JStr "Madonna"]}) empty_db
       = (empty_db, log, Responded (mkResponse 500
            (JObj {["status" := JStr "error"; "message" := JStr "Something went wrong."]}))))
  ∧ ¬ (∃ debug r, (wsgi_app loaded_at debug (POST_quotes {["author" := JStr "Madonna"]}) empty_db).2
                  = Responded r ∧ http_status r = 400).
Proof.
  split; [reflexivity|]. split.
  - eexists. vm_compute. reflexivity.
  - intros (debug & r & Hr & Hs). destruct debug; vm_compute in Hr.
    + discriminate.
    + injection Hr as <-. vm_compute in Hs. discriminate.
Qed.




(** C6 (as the code has it). [QuoteSchema] keeps marshmallow's default
    [unknown = RAISE], and dump-only fields are not load fields: when
    [process_author] completes, every field of the body other than
    [content] and [author], [id] and [posted_at] included, is reported as
    "Unknown field."; the request is answered 400 and nothing is stored. *)
Theorem C6_extra_field_rejected (t0 : datetime) (debug : bool) (db : DB)
    (body data : dict) (key : string) (v : json) :
  process_author body = Ok data →
  body !! key = Some v → key ≠ "content" → key ≠ "author" →
  ∃ errors : dict,
    wsgi_app t0 debug (POST_quotes body) db
    = (db, [], Responded (mkResponse 400
         (JObj {["status" := JStr "error"; "message" := JObj errors]})))
    ∧ errors !! key = Some (JList [JStr "Unknown field."]).
Proof.
  intros Hp Hk Hc Ha. exists (load_errors quote_schema data).
  destruct (process_author_inv _ _ Hp) as (ad & -> & _).
  assert (load_errors quote_schema (<["author" := JObj ad]> body) !! key
          = Some (JList [JStr "Unknown field."])) as He.
  { apply quote_errors_unknown with v; [|done..]. by rewrite lookup_insert_ne. }
  split; [|done].
  apply (wsgi_post_invalid t0 debug body _ _ db Hp). by eapply invalid_of_error.
Qed.

Lemma C6_witness :
  ∃ errors : dict,
    wsgi_app loaded_at false (POST_quotes (<["posted_at" := JStr "2001-01-01T00:00:00"]> (tim_peters "Simple"))) empty_db
    = (empty_db, [], Responded (mkResponse 400
         (JObj {["status" := JStr "error"; "message" := JObj errors]})))
    ∧ errors !! "posted_at" = Some (JList [JStr "Unknown field."]).
Proof.
  set (b := <["posted_at" := JStr "2001-01-01T00:00:00"]> (tim_peters "Simple")).
  assert (process_author b
          = Ok (<["author" := JObj {["first" := JStr "Tim"; "last" := JStr "Peters"]}]> b))
    as Hp by reflexivity.
  assert (b !! "posted_at" = Some (JStr "2001-01-01T00:00:00")) as Hk by reflexivity.
  apply (C6_extra_field_rejected loaded_at false empty_db b _ "posted_at" _ Hp Hk); done.
Defined.

(** An extra field is not ignored: the same request is accepted without
    the [id] field and rejected with it. *)
Lemma C6_counterexample :
  (∃ db' r, wsgi_app loaded_at false (POST_quotes (tim_peters "Simple")) empty_db
            = (db', [], Responded r) ∧ http_status r = 200)
  ∧ wsgi_app loaded_at false (POST_quotes (<["id" := JNum 7]> (tim_peters "Simple"))) empty_db
    = (empty_db, [], Responded (mkResponse 400
         (JObj {["status" := JStr "error";
                 "message" := JObj {["id" := JList [JStr "Unknown field."]]}]}))).
Proof.
  split.
  - eexists _, _. split; vm_compute; reflexivity.
  - vm_compute. reflexivity.
Qed.

(** C5 (what the code does instead). The default of [posted_at] is
    computed once, when [Quote.__init__] is defined, and a POST cannot
    supply another value: every quote any request creates is stored with
    that same timestamp, whenever the request is served. *)
Theorem C5_posted_at_is_definition_time (t0 : datetime) (body : dict) (db db' : DB)
    (quote : Quote.t) :
  db_ok db →
  create_quote t0 body db = (db', Ok quote) →
  Quote.posted_at quote = t0 ∧ quote ∈ quote_table db'.
Proof.
  intros Hok Hcq.
  destruct (create_quote_cases t0 body db)
    as [(x & Hx & _)|(name & f & l & c & _ & _ & _ & _ & _ & Hnq)].
  - rewrite Hx in Hcq. done.
  - rewrite Hnq in Hcq.
    destruct (new_quote_ok _ _ _ _ _ _ _ Hok Hcq)
      as (a & _ & _ & _ & _ & _ & _ & _ & Hq & _ & _ & Ht & _).
    split; [done|]. rewrite Hq. set_solver.
Qed.

Lemma C5_witness :
  ∃ db1 q1 db2 q2,
    create_quote loaded_at (tim_peters "Simple is better than complex.") empty_db = (db1, Ok q1)
    ∧ create_quote loaded_at (tim_peters "Explicit is better than implicit.") db1 = (db2, Ok q2)
    ∧ Quote.posted_at q1 = loaded_at ∧ Quote.posted_at q2 = loaded_at.
Proof.
  set (q1 := Quote.mk 1 "Simple is better than complex." 1 loaded_at).
  set (q2 := Quote.mk 2 "Explicit is better than implicit." 1 loaded_at).
  set (db1 := mkDB [Author.mk 1 "Tim" "Peters"] [q1]).
  set (db2 := mkDB [Author.mk 1 "Tim" "Peters"] [q1; q2]).
  assert (create_quote loaded_at (tim_peters "Simple is better than complex.") empty_db
          = (db1, Ok q1)) as H1 by (vm_compute; reflexivity).
  assert (create_quote loaded_at (tim_peters "Explicit is better than implicit.") db1
          = (db2, Ok q2)) as H2 by (vm_compute; reflexivity).
  assert (db_ok empty_db) as Hok0 by solve_db_ok.
  assert (db_ok db1) as Hok1 by solve_db_ok.
  exists db1, q1, db2, q2. split; [exact H1|]. split; [exact H2|]. split.
  - exact (proj1 (C5_posted_at_is_definition_time loaded_at _ _ _ _ Hok0 H1)).
  - exact (proj1 (C5_posted_at_is_definition_time loaded_at _ _ _ _ Hok1 H2)).
Defined.








(** C10. A POST whose [author] is a non-empty string that does not
    split on the space into exactly two tokens: [process_author] raises
    ValueError at the unpacking, before any validation. The request never
    becomes a 400: outside debug mode it is answered with the generic 500
    envelope, in debug mode the ValueError propagates. Nothing is stored. *)
Theorem C10_unpacking_raises (t0 : datetime) (db : DB) (body : dict) (name : string) :
  body !! "author" = Some (JStr name) →
  name ≠ "" →
  List.length (split " " name) ≠ 2%nat →
  ∃ e,
    etype e = "ValueError"
    ∧ process_author body = Raise (RaisePy e)
    ∧ dispatch_request t0 (POST_quotes body) db = (db, Raise (RaisePy e))
    ∧ (∃ log, wsgi_app t0 false (POST_quotes body) db
              = (db, log, Responded (handle_exception (ServerErrorException None None))))
    ∧ wsgi_app t0 true (POST_quotes body) db = (db, [], Propagated e).
Proof.
  intros Ha Hne Hlen.
  destruct (process_author_raises _ _ Ha Hne Hlen) as (msg & Hp).
  eexists. split; [|split; [exact Hp|]]; [reflexivity|].
  assert (dispatch_request t0 (POST_quotes body) db
          = (db, Raise (RaisePy (mkPyError "ValueError" msg ["main.py:152 process_author"]))))
    as Hd.
  { unfold dispatch_request, route_new_quote, response_schema.
    change (use_args quote_schema (new_quote t0) body db) with (create_quote t0 body db).
    by rewrite (create_quote_raise _ _ _ _ Hp). }
  split; [exact Hd|].
  unfold wsgi_app. rewrite Hd. split; [eexists|]; reflexivity.
Qed.

Lemma C10_witness :
  ∃ e,
    etype e = "ValueError"
    ∧ process_author {["author" := JStr "Guido van Rossum"]} = Raise (RaisePy e).
Proof.
  assert (({["author" := JStr "Guido van Rossum"]} : dict) !! "author"
          = Some (JStr "Guido van Rossum")) as Ha by reflexivity.
  assert ("Guido van Rossum" ≠ "") as Hne by discriminate.
  assert (List.length (split " " "Guido van Rossum") ≠ 2%nat) as Hlen by (vm_compute; lia).
  destruct (C10_unpacking_raises loaded_at empty_db _ _ Ha Hne Hlen) as (e & Ht & Hp & _).
  exists e. split; [exact Ht|exact Hp].
Defined.

(** * Further properties *)

(** ** More on the POST pipeline *)


Lemma process_author_raise_inv (body : dict) r :
  process_author body = Raise r →
  ∃ e, r = RaisePy e ∧ (etype e = "ValueError" ∨ etype e = "AttributeError")
       ∧ truthy (default JNull (body !! "author")) = true.
Proof.
  unfold process_author.
  destruct (truthy _) eqn:Ht; [|done].
  destruct (default JNull (body !! "author")) as [| | |name| |]; cbn;
    try (intros [= <-]; eexists; split; [reflexivity|]; split; [by right|done]).
  destruct (split " " name) as [|a [|b [|]]]; cbn;
    try (intros [= <-]; eexists; split; [reflexivity|]; split; [by left|done]).
  done.
Qed.

(** A POST either raises before anything is written (a Python exception
    of [process_author], or the 422 with a non-empty error mapping), or
    runs [new_quote] on a complete set of validated arguments. *)
Lemma create_quote_outcomes t0 (body : dict) db :
  (∃ e, create_quote t0 body db = (db, Raise (RaisePy e))
        ∧ (etype e = "ValueError" ∨ etype e = "AttributeError"))
  ∨ (∃ errors, create_quote t0 body db = (db, Raise (unprocessable errors)) ∧ errors ≠ ∅)
  ∨ (∃ name f l c, body = {["author" := JStr name; "content" := JStr c]}
       ∧ split " " name = [f; l] ∧ c ≠ ""
       ∧ create_quote t0 body db = new_quote t0 (quote_args f l c) db).
Proof.
  destruct (process_author body) as [data|r] eqn:Hp.
  - destruct (Schema_deserialize quote_schema data) as [args|errors] eqn:Hd.
    + right. right.
      destruct (create_quote_cases t0 body db)
        as [(r & Hr & _)|(name & f & l & c & Ha & Hs & Hc & Hne & Hdom & Hcq)].
      * rewrite (create_quote_valid _ _ _ _ db Hp Hd) in Hr.
        exfalso. apply process_author_inv in Hp as (ad & -> & [[-> _]|(name & f & l & Ha & Hs & ->)]).
        -- apply quote_valid_inv in Hd as (c & _ & Hargs & _).
           by rewrite author_outcome_empty in Hargs.
        -- apply quote_valid_inv in Hd as (c' & Hc & Hargs & Hdom).
           rewrite author_outcome_names in Hargs. subst args.
           rewrite content_outcome_insert in Hc.
           apply content_outcome_value in Hc as (c & -> & Hne & Hc).
           destruct (new_quote_total t0 db f l c) as (db' & q & Hnq).
           unfold quote_args in Hnq. rewrite Hnq in Hr. done.
      * exists name, f, l, c. split_and!; try done.
        apply map_eq. intros k.
        destruct (decide (k = "author")) as [->|Hna]; [by rewrite Ha|].
        destruct (decide (k = "content")) as [->|Hnc]; [by rewrite Hc|].
        rewrite lookup_insert_ne, lookup_singleton_ne by done.
        apply not_elem_of_dom. intros Hin. apply Hdom in Hin. clear -Hin Hna Hnc. set_solver.
    + right. left. exists errors. split; [by eapply create_quote_invalid|].
      revert Hd. unfold Schema_deserialize. case_bool_decide; [done|]. by intros [= <-].
  - left. destruct (process_author_raise_inv _ _ Hp) as (e & -> & He & _).
    exists e. split; [by apply create_quote_raise|done].
Qed.

(** ** Invariants of the reachable databases *)




(** ** What a request can do to the database *)





(** ** The outcomes of a request *)



Lemma dump_author_json db a : dump_author db a = author_json a.
Proof. reflexivity. Qed.


Lemma get_quote_of_elem db (q : Quote.t) :
  db_ok db → q ∈ quote_table db → get db (Quote.id q) = Some q.
Proof. intros (_ & Hnq & _) Hin. by apply (find_unique Quote.id). Qed.



(** X11. Read your write: after a POST answered 200, [GET /quotes/<id>]
    for the appended quote gives the very response the POST gave, and
    [GET /authors/<id>] for its author gives the author whose first and
    last name, joined by a space, are the submitted [author] string. *)
Theorem post_then_get t0 debug debug' db db' (body : dict) log r :
  db_ok db →
  wsgi_app t0 debug (POST_quotes body) db = (db', log, Responded r) → http_status r = 200 →
  ∃ quote author,
    quote_table db' = quote_table db ++ [quote]
    ∧ wsgi_app t0 debug' (GET_quote (Quote.id quote)) db' = (db', [], Responded r)
    ∧ wsgi_app t0 debug' (GET_author (Quote.author_id quote)) db'
      = (db', [], Responded (mkResponse 200 (author_json author)))
    ∧ body !! "author" = Some (JStr (Author.first author +:+ " " +:+ Author.last author)).
Proof.
  intros Hok Hw Hs. rewrite wsgi_post in Hw.
  destruct (create_quote_outcomes t0 body db)
    as [(e & He & _)|[(errors & He & _)|(name & f & l & c & Hb & Hsp & Hne & Hcq)]].
  - rewrite He in Hw. destruct debug; cbn in Hw; [done|]. injection Hw as <- <- <-. done.
  - rewrite He, handle_unprocessable_errors in Hw. injection Hw as <- <- <-. done.
  - rewrite Hcq in Hw.
    destruct (new_quote_total t0 db f l c) as (db1 & q & Hnq). rewrite Hnq in Hw.
    injection Hw as <- <- <-.
    destruct (new_quote_ok _ _ _ _ _ _ _ Hok Hnq)
      as (a & Hin & Hf & Hl & Hid & _ & _ & _ & Hq & _ & _ & _ & Hok').
    exists q, a. split_and!.
    + done.
    + unfold wsgi_app, dispatch_request, route_get_quote, get_quote_by_pk.
      rewrite (get_quote_of_elem db1 q Hok') by (rewrite Hq; set_solver). reflexivity.
    + unfold wsgi_app, dispatch_request, route_get_author, get_author_by_pk.
      rewrite Hid, (get_author_of_elem db1 a Hok' Hin). reflexivity.
    + subst body. rewrite Hf, Hl. rewrite lookup_insert_eq. do 2 f_equal.
      rewrite <- (join_split " " name), Hsp. reflexivity.
Qed.

Lemma post_then_get_witness :
  ∃ db' r quote,
    wsgi_app loaded_at false (POST_quotes (tim_peters "Simple")) empty_db
    = (db', [], Responded r)
    ∧ wsgi_app loaded_at true (GET_quote (Quote.id quote)) db' = (db', [], Responded r).
Proof.
  set (q1 := Quote.mk 1 "Simple" 1 loaded_at).
  set (db1 := mkDB [Author.mk 1 "Tim" "Peters"] [q1]).
  set (r1 := mkResponse 200 (dump_quote db1 q1)).
  assert (wsgi_app loaded_at false (POST_quotes (tim_peters "Simple")) empty_db
          = (db1, [], Responded r1)) as Hw by (vm_compute; reflexivity).
  assert (db_ok empty_db) as Hok by solve_db_ok.
  assert (http_status r1 = 200) as Hs by reflexivity.
  destruct (post_then_get loaded_at false true empty_db db1 _ [] r1 Hok Hw Hs)
    as (quote & author & _ & Hg & _).
  exists db1, r1, quote. split; [exact Hw|exact Hg].
Defined.

(** ** The read views *)

(** X12. [GET /authors/<pk>] for a key that has a row answers 200 with
    that row rendered by [author_schema]: [id], [first], [last] and
    [formatted_name], which is "last, first". The row found has the key
    asked for. *)
Theorem get_author_found t0 debug db pk author :
  get db pk = Some author →
  wsgi_app t0 debug (GET_author pk) db
  = (db, [], Responded (mkResponse 200 (author_json author)))
  ∧ Author.id author = pk ∧ author ∈ author_table db.
Proof.
  intros Hg. split.
  - unfold wsgi_app, dispatch_request, route_get_author, get_author_by_pk. by rewrite Hg.
  - destruct (find_Some_elem _ _ _ Hg) as [Hin HP]. split; [|done].
    by apply bool_decide_eq_true in HP.
Qed.

Lemma get_author_found_witness :
  wsgi_app loaded_at false (GET_author 1) db_after_one_post
  = (db_after_one_post, [],
     Responded (mkResponse 200 (author_json (Author.mk 1 "Tim" "Peters")))).
Proof.
  assert (get db_after_one_post 1 = Some (Author.mk 1 "Tim" "Peters")) as Hg
    by (vm_compute; reflexivity).
  exact (proj1 (get_author_found loaded_at false db_after_one_post 1 _ Hg)).
Defined.

(** X13. [GET /authors] answers 200 with the first five author rows
    in table order, each rendered as in the single view; rows beyond the
    fifth are not listed (the view passes no [skip] or [limit]). *)
Theorem get_authors_list t0 debug db :
  wsgi_app t0 debug GET_authors db
  = (db, [], Responded (mkResponse 200 (JList (author_json <$> take 5 (author_table db)))))
  ∧ List.length (author_json <$> take 5 (author_table db))
    = (List.length (author_table db) `min` 5)%nat.
Proof.
  split; [reflexivity|]. rewrite length_fmap, length_take. lia.
Qed.



(** ** More rejected input *)

(** X15. A POST whose [author] is a truthy value that is not a string
    (a number, [true], a non-empty list or object, so also the nested
    form with [first] and [last]): [process_author] raises AttributeError
    at [split]. Outside debug mode the request is answered with the
    generic 500, in debug mode the exception propagates; nothing is
    stored. *)
Theorem non_string_author_raises t0 db (body : dict) v :
  body !! "author" = Some v → truthy v = true → (∀ s, v ≠ JStr s) →
  ∃ e,
    etype e = "AttributeError"
    ∧ process_author body = Raise (RaisePy e)
    ∧ (∃ log, wsgi_app t0 false (POST_quotes body) db = (db, log, Responded generic_500))
    ∧ wsgi_app t0 true (POST_quotes body) db = (db, [], Propagated e).
Proof.
  intros Ha Ht Hns.
  assert (process_author body
          = raise_at "main.py:152 process_author" "AttributeError"
              "object has no attribute 'split'") as Hp.
  { unfold process_author. rewrite Ha. cbn [default from_option id]. rewrite Ht.
    destruct v as [| | |s| |]; try reflexivity. by destruct (Hns s). }
  eexists. split; [|split; [exact Hp|]]; [reflexivity|].
  rewrite !wsgi_post, (create_quote_raise _ _ _ _ Hp).
  split; [eexists|]; reflexivity.
Qed.

Lemma non_string_author_raises_witness :
  ∃ e,
    etype e = "AttributeError"
    ∧ wsgi_app loaded_at true
        (POST_quotes {["author" := JObj (names_dict "Tim" "Peters"); "content" := JStr "Simple"]})
        empty_db
      = (empty_db, [], Propagated e).
Proof.
  set (b := ({["author" := JObj (names_dict "Tim" "Peters"); "content" := JStr "Simple"]} : dict)).
  assert (b !! "author" = Some (JObj (names_dict "Tim" "Peters"))) as Ha by reflexivity.
  assert (truthy (JObj (names_dict "Tim" "Peters")) = true) as Ht by (vm_compute; reflexivity).
  assert (∀ s, JObj (names_dict "Tim" "Peters") ≠ JStr s) as Hns by (intros s; discriminate).
  destruct (non_string_author_raises loaded_at empty_db b _ Ha Ht Hns) as (e & He & _ & _ & Hp).
  exists e. split; [exact He|exact Hp].
Defined.

(** X16. When [process_author] completes, a POST whose [content] is
    present but not a string is answered 400 and stores nothing; the
    violation reported for [content] is "Field may not be null." for
    [null] and "Not a valid string." for any other value. *)
Theorem content_not_a_string_rejected t0 debug db (body data : dict) v :
  process_author body = Ok data →
  body !! "content" = Some v → (∀ s, v ≠ JStr s) →
  ∃ errors : dict,
    wsgi_app t0 debug (POST_quotes body) db
    = (db, [], Responded (mkResponse 400
         (JObj {["status" := JStr "error"; "message" := JObj errors]})))
    ∧ errors !! "content"
      = Some (JList [JStr match v with
                          | JNull => "Field may not be null."
                          | _ => "Not a valid string."
                          end]).
Proof.
  intros Hp Hc Hns. exists (load_errors quote_schema data).
  destruct (process_author_inv _ _ Hp) as (ad & -> & _).
  assert (load_errors quote_schema (<["author" := JObj ad]> body) !! "content"
          = Some (JList [JStr match v with
                              | JNull => "Field may not be null."
                              | _ => "Not a valid string."
                              end])) as He.
  { apply quote_errors_content. rewrite content_outcome_insert, Hc.
    destruct v as [| | |s| |]; try reflexivity. by destruct (Hns s). }
  split; [|done].
  apply (wsgi_post_invalid t0 debug body _ _ db Hp). by eapply invalid_of_error.
Qed.

Lemma content_not_a_string_rejected_witness :
  ∃ errors : dict,
    wsgi_app loaded_at false
      (POST_quotes {["author" := JStr "Tim Peters"; "content" := JNum 42]}) empty_db
    = (empty_db, [], Responded (mkResponse 400
         (JObj {["status" := JStr "error"; "message" := JObj errors]})))
    ∧ errors !! "content" = Some (JList [JStr "Not a valid string."]).
Proof.
  set (b := ({["author" := JStr "Tim Peters"; "content" := JNum 42]} : dict)).
  assert (process_author b = Ok (<["author" := JObj (names_dict "Tim" "Peters")]> b))
    as Hp by reflexivity.
  assert (b !! "content" = Some (JNum 42)) as Hc by reflexivity.
  assert (∀ s, JNum 42 ≠ JStr s) as Hns by (intros s; discriminate).
  exact (content_not_a_string_rejected loaded_at false empty_db b _ _ Hp Hc Hns).
Defined.

(** ** The CRUD helpers *)



(** X18. [crud_author.create] with a mapping whose keys are not
    exactly [first] and [last] raises TypeError from [Author.__init__]
    and stores nothing. *)
Theorem create_rejects_other_keywords db (obj_in : dict) :
  dom obj_in ≠ {["first"; "last"]} →
  ∃ e, etype e = "TypeError" ∧ crud_author_create obj_in db = (db, Raise (RaisePy e)).
Proof.
  intros Hne. unfold crud_author_create, create, mbind, M_bind, mbind_M, lift, Author_kwargs.
  destruct (obj_in !! "first") as [[| | |f| |]|] eqn:Hf;
    try solve [eexists; split; [|reflexivity]; reflexivity].
  destruct (obj_in !! "last") as [[| | |l| |]|] eqn:Hl;
    try solve [eexists; split; [|reflexivity]; reflexivity].
  destruct (decide (delete "first" (delete "last" obj_in) = ∅)) as [Hd|Hd].
  2: { rewrite bool_decide_eq_false_2 by done. eexists; split; [|reflexivity]; reflexivity. }
  exfalso. apply Hne. apply set_eq. intros k.
  rewrite elem_of_dom, elem_of_union, !elem_of_singleton.
  destruct (decide (k = "first")) as [->|Hnf]; [rewrite Hf; split; eauto|].
  destruct (decide (k = "last")) as [->|Hnl]; [rewrite Hl; split; eauto|].
  rewrite <- (lookup_delete_ne obj_in "last" k) by done.
  rewrite <- (lookup_delete_ne _ "first" k) by done.
  rewrite Hd, lookup_empty. split; [by intros [? ?]|by intros [?|?]].
Qed.

Lemma create_rejects_other_keywords_witness :
  ∃ e, etype e = "TypeError"
       ∧ crud_author_create (<["id" := JNum 3]> (names_dict "Tim" "Peters")) empty_db
         = (empty_db, Raise (RaisePy e)).
Proof.
  apply create_rejects_other_keywords.
  intros E. assert ("id" ∈ ({["first"; "last"]} : gset string)) as Hin.
  { rewrite <- E. apply elem_of_dom. by eexists. }
  vm_compute in Hin. discriminate Hin.
Defined.

(** X19. [get_multi_by_author] returns quotes of the table, in table
    order, all of the author asked for, and at most [limit] of them;
    without [skip], and with a [limit] that the author's quotes do not
    exceed, it returns exactly the quotes of that author. *)
Theorem get_multi_by_author_spec db author_id skip limit :
  get_multi_by_author db author_id skip limit `sublist_of` quote_table db
  ∧ Forall (λ q, Quote.author_id q = author_id) (get_multi_by_author db author_id skip limit)
  ∧ (List.length (get_multi_by_author db author_id skip limit) ≤ limit)%nat
  ∧ ((List.length (filter (λ q, Quote.author_id q = author_id) (quote_table db)) ≤ limit)%nat →
     ∀ q, q ∈ get_multi_by_author db author_id 0 limit
          ↔ q ∈ quote_table db ∧ Quote.author_id q = author_id).
Proof.
  unfold get_multi_by_author. split_and!.
  - etrans; [apply sublist_take|]. etrans; [apply sublist_drop|]. apply sublist_filter.
  - apply Forall_take, Forall_drop. apply Forall_forall. by intros q [? _]%list_elem_of_filter.
  - rewrite length_take. lia.
  - intros Hlen q. rewrite drop_0, take_ge by done. rewrite list_elem_of_filter. tauto.
Qed.

(** ** Debug mode *)


(** A request leaves the database as it was, or it is a POST that ran
    [new_quote] on validated arguments. *)
Lemma wsgi_db_cases t0 debug req db :
  (wsgi_app t0 debug req db).1.1 = db
  ∨ ∃ name f l c, split " " name = [f; l] ∧ c ≠ ""
      ∧ (wsgi_app t0 debug req db).1.1 = (new_quote t0 (quote_args f l c) db).1.
Proof.
  destruct req as [|pk| |pk|body|]; try by left.
  - left. unfold wsgi_app, dispatch_request, route_get_author, get_author_by_pk.
    by destruct (get db pk).
  - left. unfold wsgi_app, dispatch_request, route_get_quote, get_quote_by_pk.
    by destruct (get db pk).
  - rewrite wsgi_post.
    destruct (create_quote_outcomes t0 body db)
      as [(e & -> & _)|[(errors & -> & _)|(name & f & l & c & _ & Hsp & Hne & ->)]].
    + left. by destruct debug.
    + left. by rewrite handle_unprocessable_errors.
    + right. exists name, f, l, c. split_and!; [done..|].
      by destruct (new_quote_total t0 db f l c) as (db' & q & ->).
Qed.

(** X3. What validation lets through is all that is ever stored: in
    every reachable database no quote has an empty [content], and no
    author's first or last name contains a space. *)
Theorem reachable_rows_validated t0 db :
  reachable t0 db →
  Forall (λ q, Quote.content q ≠ "") (quote_table db)
  ∧ Forall (λ a, count " " (Author.first a) = 0%nat ∧ count " " (Author.last a) = 0%nat)
      (author_table db).
Proof.
  induction 1 as [|debug req db _ [IHq IHa]]; [by split; apply Forall_nil_2|].
  destruct (wsgi_db_cases t0 debug req db) as [->|(name & f & l & c & Hsp & Hne & ->)]; [done|].
  assert (count " " f = 0%nat ∧ count " " l = 0%nat) as Htok.
  { split; apply (split_tokens " " name); rewrite Hsp; set_solver. }
  destruct (get_by_name db f l) as [a|] eqn:Hg.
  - rewrite (new_quote_found _ _ _ _ _ _ Hg). cbn [fst author_table quote_table].
    split; [|done]. apply Forall_app. split; [done|]. by apply Forall_singleton.
  - rewrite (new_quote_created _ _ _ _ _ Hg). cbn [fst author_table quote_table].
    split; (apply Forall_app; split; [done|]); by apply Forall_singleton.
Qed.

Lemma reachable_rows_validated_witness :
  Forall (λ q, Quote.content q ≠ "") (quote_table db_after_one_post).
Proof.
  apply (reachable_rows_validated loaded_at db_after_one_post).
  unfold db_after_one_post. apply reachable_step, reachable_empty.
Defined.



(** X21. For a non-empty [author] string, [process_author] completes
    exactly when the string contains exactly one space. *)
Theorem process_author_succeeds_iff (body : dict) name :
  body !! "author" = Some (JStr name) → name ≠ "" →
  (∃ data, process_author body = Ok data) ↔ count " " name = 1%nat.
Proof.
  intros Ha Hne. split.
  - intros (data & Hp).
    destruct (process_author_inv _ _ Hp) as (ad & _ & [[_ Hf]|(n & f & l & Hn & Hsp & _)]).
    + rewrite Ha in Hf. cbn [default from_option id] in Hf.
      by rewrite (proj2 (truthy_JStr name)) in Hf.
    + rewrite Ha in Hn. injection Hn as <-.
      pose proof (split_length " " name) as Hl. rewrite Hsp in Hl. cbn in Hl. lia.
  - intros Hc. destruct (split_two " " name Hc) as (f & l & Hsp & _).
    eexists. by eapply process_author_two.
Qed.

Lemma process_author_succeeds_iff_witness :
  (∃ data, process_author (tim_peters "Simple") = Ok data) ↔ count " " "Tim Peters" = 1%nat.
Proof.
  apply process_author_succeeds_iff; [reflexivity|discriminate].
Defined.
